(** * check_versions_temp.py: the package version probe

    A shallow embedding of [src-tauri/check_versions_temp.py] and the
    properties of its lookup function [v] and of the script as a whole.

    Python text is modelled by [string]: one character per code point, over
    the code points U+0000..U+00FF.  The [str] methods the script calls are
    modelled on that range as CPython defines them.  What the script obtains
    from outside (the [pip show] child process, the import system) is a
    [world]; every call the script makes to it is recorded as an [event]. *)

From Stdlib Require Import String Ascii List Bool NArith ZArith Lia.
From Stdlib Require Import DecimalString DecimalFacts DecimalPos DecimalZ.
Import ListNotations.

Local Open Scope string_scope.
Local Open Scope list_scope.

(** ** Python [str] *)

Module PyStr.

Definition LF : ascii := "010"%char.
Definition CR : ascii := "013"%char.
Definition COLON : ascii := ":"%char.

Definition code (c : ascii) : N := N_of_ascii c.

Definition between (lo hi : N) (c : ascii) : bool :=
  ((lo <=? code c) && (code c <=? hi))%N.

(** [str.isspace] on one character: U+0009..U+000D, U+001C..U+001F, the
    space, NEL (U+0085) and the no-break space (U+00A0). *)
Definition isspace (c : ascii) : bool :=
  between 9 13 c || between 28 31 c || (code c =? 32)%N
  || (code c =? 133)%N || (code c =? 160)%N.

(** The line boundaries of [str.splitlines]: LF, VT, FF, CR, FS, GS, RS and
    NEL. *)
Definition islinebreak (c : ascii) : bool :=
  between 10 13 c || between 28 30 c || (code c =? 133)%N.

(** [str.lower] on one character: A..Z and the capital letters of
    U+00C0..U+00DE (all but the multiplication sign U+00D7) move up by 32. *)
Definition lower_char (c : ascii) : ascii :=
  if between 65 90 c || (between 192 222 c && negb (code c =? 215)%N)
  then ascii_of_N (code c + 32)
  else c.

Fixpoint lower (s : string) : string :=
  match s with
  | EmptyString => EmptyString
  | String c s' => String (lower_char c) (lower s')
  end.

(** [s.startswith(p)]. *)
Definition startswith (p s : string) : bool := String.prefix p s.

(** [s.splitlines()].  [after_cr] records that the previous character was a
    CR that ended a line, so that an LF right after it belongs to the same
    line boundary. *)
Fixpoint splitlines_aux (after_cr : bool) (s : string) : list string :=
  match s with
  | EmptyString => []
  | String c s' =>
      if after_cr && Ascii.eqb c LF then splitlines_aux false s'
      else if islinebreak c then EmptyString :: splitlines_aux (Ascii.eqb c CR) s'
      else match splitlines_aux false s' with
           | [] => [String c EmptyString]
           | l :: ls => String c l :: ls
           end
  end.

Definition splitlines (s : string) : list string := splitlines_aux false s.

(** The text before and after the first occurrence of [sep], if any. *)
Fixpoint partition (sep : ascii) (s : string) : option (string * string) :=
  match s with
  | EmptyString => None
  | String c s' =>
      if Ascii.eqb c sep then Some (EmptyString, s')
      else match partition sep s' with
           | Some (a, b) => Some (String c a, b)
           | None => None
           end
  end.

(** [s.split(sep, maxsplit)] for a one-character separator. *)
Fixpoint split (sep : ascii) (maxsplit : nat) (s : string) : list string :=
  match maxsplit with
  | O => [s]
  | S m =>
      match partition sep s with
      | Some (a, b) => a :: split sep m b
      | None => [s]
      end
  end.

Fixpoint lstrip (s : string) : string :=
  match s with
  | EmptyString => EmptyString
  | String c s' => if isspace c then lstrip s' else s
  end.

Fixpoint rstrip (s : string) : string :=
  match s with
  | EmptyString => EmptyString
  | String c s' =>
      match rstrip s' with
      | EmptyString => if isspace c then EmptyString else String c EmptyString
      | r => String c r
      end
  end.

(** [s.strip()]. *)
Definition strip (s : string) : string := rstrip (lstrip s).

End PyStr.

(** ** Exceptions and values *)

(** The exception classes the script can meet.  [KeyboardInterrupt] derives
    from [BaseException] only; [OtherException cls] is any further subclass
    of [Exception]. *)
Inductive exn : Type :=
| ModuleNotFoundError (name : string)
| ImportError (msg : string)
| AttributeError (name : string)
| IndexError
| TypeError (msg : string)
| ValueError (msg : string)
| RecursionError
| FileNotFoundError (path : string)
| UnicodeDecodeError
| KeyboardInterrupt
| OtherException (cls : string).

Inductive result (A : Type) : Type :=
| Return (a : A)
| Raise (e : exn).
Arguments Return {A} a.
Arguments Raise {A} e.

Section Traverse.

Context {A B : Type}.

(** [f] on every item in turn, up to the first one that raises. *)
Section MapResult.
Variable f : A -> result B.

Fixpoint map_result (xs : list A) : result (list B) :=
  match xs with
  | [] => Return []
  | x :: xs' =>
      match f x with
      | Raise e => Raise e
      | Return y =>
          match map_result xs' with
          | Raise e => Raise e
          | Return ys => Return (y :: ys)
          end
      end
  end.
End MapResult.

Section MapOption.
Variable f : A -> option B.

Fixpoint map_option (xs : list A) : option (list B) :=
  match xs with
  | [] => Some []
  | x :: xs' =>
      match f x, map_option xs' with
      | Some y, Some ys => Some (y :: ys)
      | _, _ => None
      end
  end.
End MapOption.

End Traverse.

(** A float as [json.dumps] sees it: not a number, an infinity, or a finite
    float, given by the parts of the text [float.__repr__] writes for it: the
    sign, the digits before the point, the digits after the point if there
    are any (so many zeros, then a number), and the exponent if there is
    one. *)
Inductive pyfloat : Type :=
| FNaN
| FInf (negative : bool)
| FFinite (negative : bool) (whole : N) (frac : option (nat * N))
    (exponent : option Z).

(** The keys of a dict, as [json.dumps] tells them apart: text, [None],
    booleans, integers, floats, and [KOther cls], a key of any other class
    (a tuple, say). *)
Inductive pykey : Type :=
| KStr (s : string)
| KNone
| KBool (b : bool)
| KInt (n : Z)
| KFloat (f : pyfloat)
| KOther (cls : string).

(** The objects a module can hold as [__version__], as far as [json.dumps]
    tells them apart: text ([str] and its subclasses), [None], booleans,
    integers, floats, lists and tuples, dicts (their items in insertion
    order), and [PObject cls], an instance of a class the encoder has no rule
    for.  An object is a finite tree: a list or a dict that holds itself,
    for which [json.dumps] raises, is not among them. *)
#[warnings="-register-all"]
Inductive pyval : Type :=
| PStr (s : string)
| PNone
| PBool (b : bool)
| PInt (n : Z)
| PFloat (f : pyfloat)
| PList (xs : list pyval)
| PDict (items : list (pykey * pyval))
| PObject (cls : string).

(** The limits of the interpreter that bear on [json.dumps]:
    [sys.get_int_max_str_digits()], the most digits an integer may have to be
    written in decimal (zero when there is no limit), and the depth of
    nesting of lists and dicts up to which the recursion limit lets the
    encoder walk an object. *)
Record limits : Type := {
  int_max_str_digits : N;
  max_nesting : nat
}.

(** ** The outside world and the calls made to it *)

(** What running a child process comes to for [subprocess.run]: the call
    itself raises (the program cannot be started, its output cannot be
    decoded), or the child exits with a status and the text it wrote. *)
Inductive child : Type :=
| RunRaises (e : exn)
| Exited (returncode : Z) (out : string).

Record CompletedProcess : Type := {
  args : list string;
  returncode : Z;
  stdout : string
}.

(** A module object, seen through attribute access: the read of an
    attribute yields an object or raises (the attribute is missing, or the
    module computes it and fails). *)
Definition module : Type := string -> result pyval.

(** The world answers each call by its arguments.  The script never makes
    the same call twice (four package names, four module names), so every
    course of one execution is the course of some world.

    An import returns a module or raises: one that ends the process (a
    crash of a native library, [os._exit]) is outside the model, and so is
    what the code of an imported module writes to standard output on its
    own. *)
Record world : Type := {
  sys_executable : string;
  os_exec : list string -> child;
  py_import : string -> result module;
  sys_limits : limits;
  (** what a write of the text to [sys.stdout] does: it raises, or it is
      accepted *)
  stdout_write : string -> option exn;
  (** whether what [sys.stdout] holds back can be flushed when the
      interpreter exits *)
  stdout_flush_ok : bool
}.

(** The calls the script makes: to [subprocess.run], to [__import__] and to
    [print], each with its argument, whether the call returns or raises. *)
Inductive event : Type :=
| EvRun (argv : list string)
| EvImport (name : string)
| EvPrint (text : string).

(** Computations of the script: they read the world, record the calls they
    make, and return or raise. *)
Definition M (A : Type) : Type := world -> list event * result A.

Definition ret {A} (a : A) : M A := fun _ => ([], Return a).

Definition raise {A} (e : exn) : M A := fun _ => ([], Raise e).

Definition bind {A B} (m : M A) (f : A -> M B) : M B :=
  fun w =>
    match m w with
    | (t, Return a) => let (t', r) := f a w in (t ++ t', r)
    | (t, Raise e) => (t, Raise e)
    end.

(** [try: m  except: h] with a bare [except], which catches everything. *)
Definition try_except {A} (m : M A) (h : M A) : M A :=
  fun w =>
    match m w with
    | (t, Return a) => (t, Return a)
    | (t, Raise _) => let (t', r) := h w in (t ++ t', r)
    end.

Definition lift {A} (r : result A) : M A := fun _ => ([], r).

Notation "x <- m ;; k" := (bind m (fun x => k))
  (at level 61, m at next level, right associativity).

Definition get_sys_executable : M string :=
  fun w => ([], Return (sys_executable w)).

(** [subprocess.run(argv, stdout=PIPE, text=True, check=check)]: with
    [check] a non-zero exit status raises [CalledProcessError]; without it
    the completed process is returned whatever its status. *)
Definition subprocess_run (argv : list string) (check : bool) : M CompletedProcess :=
  fun w =>
    ([EvRun argv],
     match os_exec w argv with
     | RunRaises e => Raise e
     | Exited rc out =>
         if check && negb (rc =? 0)%Z
         then Raise (OtherException "CalledProcessError")
         else Return {| args := argv; returncode := rc; stdout := out |}
     end).

(** [__import__(name)]: the import returns the module or raises. *)
Definition import_ (name : string) : M module :=
  fun w => ([EvImport name], py_import w name).

Definition getattr (m : module) (name : string) : M pyval := lift (m name).

(** [xs[n]] on a list. *)
Definition getitem (xs : list string) (n : nat) : M string :=
  match nth_error xs n with
  | Some x => ret x
  | None => raise IndexError
  end.

(** ** The lookup function [v] *)

Definition is_version_line (l : string) : bool :=
  PyStr.startswith "version:" (PyStr.lower l).

(** The [for] loop of [v]: [Some m] when a line makes the function return
    (with [m]), [None] when the loop runs to its end. *)
Fixpoint scan (lines : list string) : option (M pyval) :=
  match lines with
  | [] => None
  | l :: rest =>
      if is_version_line l
      then Some (x <- getitem (PyStr.split PyStr.COLON 1 l) 1 ;;
                 ret (PStr (PyStr.strip x)))
      else scan rest
  end.

Definition not_installed : pyval := PStr "not installed".

Definition v (p i : string) : M pyval :=
  exe <- get_sys_executable ;;
  r <- subprocess_run [exe; "-m"; "pip"; "show"; p] false ;;
  match scan (PyStr.splitlines (stdout r)) with
  | Some found => found
  | None =>
      try_except
        (m <- import_ i ;; getattr m "__version__")
        (ret not_installed)
  end.

(** ** [json.dumps] *)

Module Json.

Local Open Scope string_scope.

Definition DQUOTE : ascii := "034"%char.
Definition BACKSLASH : ascii := "092"%char.
Definition BS : ascii := "008"%char.
Definition TAB : ascii := "009"%char.
Definition FF : ascii := "012"%char.

Definition hexdigit (n : N) : ascii :=
  if (n <? 10)%N then ascii_of_N (48 + n) else ascii_of_N (87 + n).

(** The replacement of one character by [py_encode_basestring_ascii]: the
    short escapes of [ESCAPE_DCT], the character itself when it is printable
    ASCII, and a [\u00xx] escape with lower-case digits otherwise. *)
Definition escape_char (c : ascii) : string :=
  if Ascii.eqb c BACKSLASH then String BACKSLASH (String BACKSLASH EmptyString)
  else if Ascii.eqb c DQUOTE then String BACKSLASH (String DQUOTE EmptyString)
  else if Ascii.eqb c BS then String BACKSLASH "b"
  else if Ascii.eqb c FF then String BACKSLASH "f"
  else if Ascii.eqb c PyStr.LF then String BACKSLASH "n"
  else if Ascii.eqb c PyStr.CR then String BACKSLASH "r"
  else if Ascii.eqb c TAB then String BACKSLASH "t"
  else if PyStr.between 32 126 c then String c EmptyString
  else String BACKSLASH
         (String "u" (String "0" (String "0"
           (String (hexdigit (PyStr.code c / 16))
             (String (hexdigit (PyStr.code c mod 16)) EmptyString))))).

Fixpoint escape (s : string) : string :=
  match s with
  | EmptyString => EmptyString
  | String c s' => escape_char c ++ escape s'
  end.

Definition py_encode_basestring_ascii (s : string) : string :=
  String DQUOTE (escape s ++ String DQUOTE EmptyString).

Definition decimal (n : N) : string := NilZero.string_of_uint (N.to_uint n).

(** The decimal digits of [n], without its sign. *)
Definition int_digits (n : Z) : Decimal.uint :=
  match Z.to_int n with
  | Decimal.Pos d => d
  | Decimal.Neg d => d
  end.

(** The conversion of [n] to decimal is refused: a limit is set, and the
    number has more digits than the limit and than the threshold of 640
    digits under which no check is made. *)
Definition exceeds_limit (max_str_digits : N) (n : Z) : bool :=
  let digits := N.of_nat (Decimal.nb_digits (int_digits n)) in
  ((0 <? max_str_digits) && (max_str_digits <? digits) && (640 <? digits))%N.

(** [int.__repr__]: the decimal digits, with a minus sign when negative, or
    a [ValueError] when the number has too many digits. *)
Definition int_repr (max_str_digits : N) (n : Z) : result string :=
  if exceeds_limit max_str_digits n
  then Raise (ValueError
                ("Exceeds the limit (" ++ decimal max_str_digits
                 ++ " digits) for integer string conversion; "
                 ++ "use sys.set_int_max_str_digits() to increase the limit"))
  else Return (NilZero.string_of_int (Z.to_int n)).

Fixpoint zeros (k : nat) : string :=
  match k with
  | O => EmptyString
  | S k' => String "0" (zeros k')
  end.

(** The text of a finite float: [float.__repr__] writes a point and the
    digits after it, or an exponent with its sign and two digits at least,
    or both. *)
Definition float_repr (negative : bool) (whole : N) (frac : option (nat * N))
    (exponent : option Z) : string :=
  (if negative then "-" else "")
  ++ decimal whole
  ++ match frac with
     | Some (k, n) => "." ++ zeros k ++ decimal n
     | None => ""
     end
  ++ match exponent with
     | Some e =>
         "e" ++ (if (e <? 0)%Z then "-" else "+")
         ++ (if (Z.abs_N e <? 10)%N then "0" else "") ++ decimal (Z.abs_N e)
     | None => ""
     end.

(** [floatstr] of the encoder, with [allow_nan] left at its default. *)
Definition floatstr (f : pyfloat) : string :=
  match f with
  | FNaN => "NaN"
  | FInf false => "Infinity"
  | FInf true => "-Infinity"
  | FFinite negative whole frac exponent =>
      float_repr negative whole frac exponent
  end.

Fixpoint spaces (n : nat) : string :=
  match n with
  | O => EmptyString
  | S n' => String " " (spaces n')
  end.

(** ['\n' + _indent * level], with [_indent] made of [indent] spaces. *)
Definition newline_indent (indent level : nat) : string :=
  String PyStr.LF (spaces (indent * level)).

Definition not_serializable (cls : string) : exn :=
  TypeError ("Object of type " ++ cls ++ " is not JSON serializable").

(** The text a key of a dict is written as, before it is quoted: the key
    itself when it is text, what the encoder writes for the value when it is
    a float, a boolean, [None] or an integer, and a [TypeError] for any
    other key. *)
Definition key_text (max_str_digits : N) (k : pykey) : result string :=
  match k with
  | KStr s => Return s
  | KFloat f => Return (floatstr f)
  | KBool true => Return "true"
  | KBool false => Return "false"
  | KNone => Return "null"
  | KInt n => int_repr max_str_digits n
  | KOther cls =>
      Raise (TypeError
               ("keys must be str, int, float, bool or None, not " ++ cls))
  end.

(** One [key: value] item of [_iterencode_dict], from the text of the key
    and the text of the value: the key is looked at first. *)
Definition encode_pair (key value : result string) : result string :=
  match key with
  | Raise e => Raise e
  | Return k =>
      match value with
      | Raise e => Raise e
      | Return t => Return (py_encode_basestring_ascii k ++ ": " ++ t)
      end
  end.

(** [_iterencode] with its [_iterencode_list] and [_iterencode_dict], the
    chunks joined: the text of one value at nesting depth [level], or the
    exception of the first object that cannot be written: a [TypeError] for
    an object the encoder has no rule for or for a key it does not take, a
    [ValueError] for an integer with too many digits, a [RecursionError]
    for a list or a dict nested too deep. *)
Fixpoint iterencode (lim : limits) (indent level : nat) (o : pyval)
    {struct o} : result string :=
  match o with
  | PStr s => Return (py_encode_basestring_ascii s)
  | PNone => Return "null"
  | PBool true => Return "true"
  | PBool false => Return "false"
  | PInt n => int_repr (int_max_str_digits lim) n
  | PFloat f => Return (floatstr f)
  | PList xs =>
      if (max_nesting lim <? level)%nat then Raise RecursionError
      else
        match xs with
        | [] => Return "[]"
        | _ =>
            match map_result (iterencode lim indent (S level)) xs with
            | Raise e => Raise e
            | Return ts =>
                Return ("[" ++ newline_indent indent (S level)
                        ++ String.concat ("," ++ newline_indent indent (S level)) ts
                        ++ newline_indent indent level ++ "]")
            end
        end
  | PDict items =>
      if (max_nesting lim <? level)%nat then Raise RecursionError
      else
        match items with
        | [] => Return "{}"
        | _ =>
            match
              map_result
                (fun kv : pykey * pyval =>
                   encode_pair (key_text (int_max_str_digits lim) (fst kv))
                     (iterencode lim indent (S level) (snd kv)))
                items
            with
            | Raise e => Raise e
            | Return ts =>
                Return ("{" ++ newline_indent indent (S level)
                        ++ String.concat ("," ++ newline_indent indent (S level)) ts
                        ++ newline_indent indent level ++ "}")
            end
        end
  | PObject cls => Raise (not_serializable cls)
  end.

(** One item of a dict whose values stand at depth [level]. *)
Definition encode_member (lim : limits) (indent level : nat)
    (kv : pykey * pyval) : result string :=
  encode_pair (key_text (int_max_str_digits lim) (fst kv))
    (iterencode lim indent level (snd kv)).

(** One item of the dict of the script, whose keys are text. *)
Definition encode_item (lim : limits) (indent level : nat)
    (kv : string * pyval) : result string :=
  encode_pair (Return (fst kv)) (iterencode lim indent level (snd kv)).

Definition encode_items (lim : limits) (indent level : nat)
    (d : list (string * pyval)) : result (list string) :=
  map_result (encode_item lim indent level) d.

(** [json.dumps(d, indent=indent)] for a dict [d] with [str] keys, given as
    its items in insertion order. *)
Definition dumps (d : list (string * pyval)) (indent : nat) : M string :=
  fun w =>
    match d with
    | [] => ret "{}" w
    | _ =>
        match encode_items (sys_limits w) indent 1 d with
        | Raise e => raise e w
        | Return ts =>
            ret ("{" ++ newline_indent indent 1
                 ++ String.concat ("," ++ newline_indent indent 1) ts
                 ++ newline_indent indent 0 ++ "}") w
        end
    end.

End Json.

(** ** The script *)

(** [print(s)]: the text and a line feed are handed to [sys.stdout]; a
    write that fails raises.  The event records the call, whether the write
    is accepted or not. *)
Definition print (s : string) : M unit :=
  fun w =>
    let text := (s ++ String PyStr.LF EmptyString)%string in
    ([EvPrint text],
     match stdout_write w text with
     | Some e => Raise e
     | None => Return tt
     end).

(** The module body: the dict display with its four calls of [v], then
    [json.dumps] and [print].  The [import] statement that precedes them
    names three modules of the standard library ([json], [subprocess],
    [sys]); it is taken to succeed and leaves no event. *)
Definition script : M unit :=
  a <- v "rvc-python" "rvc" ;;
  b <- v "edge-tts" "edge_tts" ;;
  c <- v "torch" "torch" ;;
  d <- v "torchaudio" "torchaudio" ;;
  s <- Json.dumps [("rvc-python", a); ("edge-tts", b); ("torch", c); ("torchaudio", d)] 2 ;;
  print s.

(** How the interpreter exits: status zero when the module body ran to its
    end and standard output could be flushed, a failure status when an
    exception reached the top level or the flush failed. *)
Inductive exit_status : Type := ExitSuccess | ExitFailure.

Definition run_script (w : world) : list event * exit_status :=
  match script w with
  | (t, Return _) => (t, if stdout_flush_ok w then ExitSuccess else ExitFailure)
  | (t, Raise _) => (t, ExitFailure)
  end.

(** ** Vocabulary of the properties *)

(** A line feed, as text. *)
Definition LFs : string := String PyStr.LF EmptyString.

Definition trace {A} (x : list event * result A) : list event := fst x.
Definition outcome {A} (x : list event * result A) : result A := snd x.

(** The command line of the query for package [p]. *)
Definition pip_show_argv (w : world) (p : string) : list string :=
  [sys_executable w; "-m"; "pip"; "show"; p].

(** The four lookups of the script, in the order of the dict display. *)
Definition lookups : list (string * string) :=
  [("rvc-python", "rvc"); ("edge-tts", "edge_tts");
   ("torch", "torch"); ("torchaudio", "torchaudio")].

(** The fallback of [v] raises [e]: the import does, or the read of
    [__version__] on the imported module does. *)
Definition fallback_raises (w : world) (i : string) (e : exn) : Prop :=
  py_import w i = Raise e \/
  exists m, py_import w i = Return m /\ m "__version__" = Raise e.

(** The fallback of [v] yields the object [a]. *)
Definition fallback_returns (w : world) (i : string) (a : pyval) : Prop :=
  exists m, py_import w i = Return m /\ m "__version__" = Return a.

(** Nothing was written to standard output. *)
Definition no_print (t : list event) : Prop :=
  forall text, ~ In (EvPrint text) t.

(** The lookup [pi = (p, i)] resolves to the object [a]. *)
Definition resolved (w : world) (pi : string * string) (a : pyval) : Prop :=
  outcome (v (fst pi) (snd pi) w) = Return a.

Fixpoint all_space (s : string) : bool :=
  match s with
  | EmptyString => true
  | String c s' => PyStr.isspace c && all_space s'
  end.

Definition first_char (s : string) : option ascii :=
  match s with
  | EmptyString => None
  | String c _ => Some c
  end.

Fixpoint last_char (s : string) : option ascii :=
  match s with
  | EmptyString => None
  | String c EmptyString => Some c
  | String _ s' => last_char s'
  end.

Fixpoint has_char (c : ascii) (s : string) : bool :=
  match s with
  | EmptyString => false
  | String c' s' => Ascii.eqb c' c || has_char c s'
  end.

(** [t] is [s] trimmed of surrounding whitespace. *)
Definition trimmed (s t : string) : Prop :=
  exists a b,
    s = (a ++ t ++ b)%string /\
    all_space a = true /\ all_space b = true /\
    (forall c, first_char t = Some c -> PyStr.isspace c = false) /\
    (forall c, last_char t = Some c -> PyStr.isspace c = false).

Definition is_str (a : pyval) : bool :=
  match a with
  | PStr _ => true
  | _ => false
  end.

(** The keys [json.dumps] takes when integers may have [max_str_digits]
    digits. *)
Definition key_ok (max_str_digits : N) (k : pykey) : bool :=
  match k with
  | KOther _ => false
  | KInt n => negb (Json.exceeds_limit max_str_digits n)
  | _ => true
  end.

(** The encoder has a rule for every part of [a]: no instance of a class
    without a rule, no integer over the limit and no key it does not take,
    at any depth. *)
Fixpoint encodable (max_str_digits : N) (a : pyval) : bool :=
  match a with
  | PObject _ => false
  | PInt n => negb (Json.exceeds_limit max_str_digits n)
  | PList xs => forallb (encodable max_str_digits) xs
  | PDict items =>
      forallb (fun kv : pykey * pyval =>
                 key_ok max_str_digits (fst kv)
                 && encodable max_str_digits (snd kv)) items
  | _ => true
  end.

(** The lists and dicts of [a] are nested at most [room] deep. *)
Fixpoint fits (room : nat) (a : pyval) : bool :=
  match a with
  | PList xs =>
      match room with
      | O => false
      | S r => forallb (fits r) xs
      end
  | PDict items =>
      match room with
      | O => false
      | S r => forallb (fun kv : pykey * pyval => fits r (snd kv)) items
      end
  | _ => true
  end.

(** The objects [json.dumps] writes as a value of the dict of the script
    within the limits [lim]. *)
Definition serializable (lim : limits) (a : pyval) : bool :=
  encodable (int_max_str_digits lim) a && fits (max_nesting lim) a.

(** No float among the values of [a] is a NaN or an infinity, at any
    depth. *)
Fixpoint finite_floats (a : pyval) : bool :=
  match a with
  | PFloat (FFinite _ _ _ _) => true
  | PFloat _ => false
  | PList xs => forallb finite_floats xs
  | PDict items => forallb (fun kv : pykey * pyval => finite_floats (snd kv)) items
  | _ => true
  end.

(** ** JSON texts (RFC 8259)

    The grammar of JSON as a relation between a document and the texts that
    denote it.  An integer denotes its value and any other number is kept
    as it is written; a [\u] escape denotes a character below U+0100. *)

Module JsonText.

Local Open Scope string_scope.

#[warnings="-register-all"]
Inductive json : Type :=
| JNull
| JBool (b : bool)
| JNumber (n : Z)
| JReal (lexeme : string)
| JString (s : string)
| JArray (xs : list json)
| JObject (members : list (string * json)).

Definition is_ws_char (c : ascii) : bool :=
  Ascii.eqb c " " || Ascii.eqb c Json.TAB || Ascii.eqb c PyStr.LF
  || Ascii.eqb c PyStr.CR.

Fixpoint ws (s : string) : bool :=
  match s with
  | EmptyString => true
  | String c s' => is_ws_char c && ws s'
  end.

(** A digit sequence of the grammar: not empty, and with a leading zero only
    when it is the single digit zero. *)
Definition digits_ok (d : Decimal.uint) : Prop :=
  match d with
  | Decimal.Nil => False
  | Decimal.D0 Decimal.Nil => True
  | Decimal.D0 _ => False
  | _ => True
  end.

Inductive number : Z -> string -> Prop :=
| number_pos d :
    digits_ok d -> number (Z.of_uint d) (NilEmpty.string_of_uint d)
| number_neg d :
    digits_ok d -> number (- Z.of_uint d) ("-" ++ NilEmpty.string_of_uint d).

(** The fraction of a number: nothing, or a point and one digit at least. *)
Inductive fraction : string -> Prop :=
| fraction_none : fraction EmptyString
| fraction_some d :
    d <> Decimal.Nil -> fraction ("." ++ NilEmpty.string_of_uint d).

(** The exponent of a number: nothing, or an [e], a sign if any, and one
    digit at least. *)
Inductive exponent : string -> Prop :=
| exponent_none : exponent EmptyString
| exponent_some e sign d :
    e = "e"%char \/ e = "E"%char ->
    sign = "" \/ sign = "+" \/ sign = "-" ->
    d <> Decimal.Nil ->
    exponent (String e (sign ++ NilEmpty.string_of_uint d)).

(** A number in full: a minus sign if any, the integer digits, a fraction
    and an exponent. *)
Inductive real : string -> Prop :=
| real_intro sign d f x :
    sign = "" \/ sign = "-" -> digits_ok d -> fraction f -> exponent x ->
    real (sign ++ NilEmpty.string_of_uint d ++ f ++ x).

Definition hexval (c : ascii) : option N :=
  let n := PyStr.code c in
  if PyStr.between 48 57 c then Some (n - 48)%N
  else if PyStr.between 97 102 c then Some (n - 87)%N
  else if PyStr.between 65 70 c then Some (n - 55)%N
  else None.

(** The character a two-character escape stands for. *)
Definition short_escape (e : ascii) : option ascii :=
  if Ascii.eqb e Json.DQUOTE then Some Json.DQUOTE
  else if Ascii.eqb e Json.BACKSLASH then Some Json.BACKSLASH
  else if Ascii.eqb e "/" then Some "/"%char
  else if Ascii.eqb e "b" then Some Json.BS
  else if Ascii.eqb e "f" then Some Json.FF
  else if Ascii.eqb e "n" then Some PyStr.LF
  else if Ascii.eqb e "r" then Some PyStr.CR
  else if Ascii.eqb e "t" then Some Json.TAB
  else None.

(** [char_text c t]: inside a string literal, [t] denotes the character
    [c]. *)
Inductive char_text : ascii -> string -> Prop :=
| char_plain c :
    (32 <= PyStr.code c)%N -> c <> Json.DQUOTE -> c <> Json.BACKSLASH ->
    char_text c (String c EmptyString)
| char_short c e :
    short_escape e = Some c ->
    char_text c (String Json.BACKSLASH (String e EmptyString))
| char_unicode c h l x y :
    hexval h = Some x -> hexval l = Some y -> PyStr.code c = (16 * x + y)%N ->
    char_text c
      (String Json.BACKSLASH
         (String "u" (String "0" (String "0" (String h (String l EmptyString)))))).

Inductive chars : string -> string -> Prop :=
| chars_nil : chars EmptyString EmptyString
| chars_cons c t s ts :
    char_text c t -> chars s ts -> chars (String c s) (t ++ ts).

Definition quoted (t : string) : string :=
  String Json.DQUOTE (t ++ String Json.DQUOTE EmptyString).

Inductive value : json -> string -> Prop :=
| value_null : value JNull "null"
| value_true : value (JBool true) "true"
| value_false : value (JBool false) "false"
| value_number n t : number n t -> value (JNumber n) t
| value_real t : real t -> value (JReal t) t
| value_string s t : chars s t -> value (JString s) (quoted t)
| value_array_empty sp : ws sp = true -> value (JArray []) ("[" ++ sp ++ "]")
| value_array xs t : elements xs t -> value (JArray xs) ("[" ++ t ++ "]")
| value_object_empty sp : ws sp = true -> value (JObject []) ("{" ++ sp ++ "}")
| value_object ms t : members ms t -> value (JObject ms) ("{" ++ t ++ "}")

with element : json -> string -> Prop :=
| element_intro j sp1 t sp2 :
    ws sp1 = true -> value j t -> ws sp2 = true ->
    element j (sp1 ++ t ++ sp2)

with elements : list json -> string -> Prop :=
| elements_one j t : element j t -> elements [j] t
| elements_more j t js ts :
    element j t -> elements js ts -> elements (j :: js) (t ++ "," ++ ts)

with member : string * json -> string -> Prop :=
| member_intro k kt j sp1 sp2 t :
    ws sp1 = true -> chars k kt -> ws sp2 = true -> element j t ->
    member (k, j) (sp1 ++ quoted kt ++ sp2 ++ ":" ++ t)

with members : list (string * json) -> string -> Prop :=
| members_one m t : member m t -> members [m] t
| members_more m t ms ts :
    member m t -> members ms ts -> members (m :: ms) (t ++ "," ++ ts).

(** [t] is a JSON text for the document [j]. *)
Definition json_text (j : json) (t : string) : Prop := element j t.

End JsonText.

(** The name a key of a dict is written as. *)
Definition key_name (k : pykey) : option string :=
  match k with
  | KStr s => Some s
  | KFloat f => Some (Json.floatstr f)
  | KBool true => Some "true"%string
  | KBool false => Some "false"%string
  | KNone => Some "null"%string
  | KInt n => Some (NilZero.string_of_int (Z.to_int n))
  | KOther _ => None
  end.

Definition to_member (key : option string) (value : option JsonText.json)
  : option (string * JsonText.json) :=
  match key, value with
  | Some k, Some j => Some (k, j)
  | _, _ => None
  end.

(** The document a serialisable object is written as; a NaN or an infinity
    has none. *)
Fixpoint to_json (a : pyval) : option JsonText.json :=
  match a with
  | PStr s => Some (JsonText.JString s)
  | PNone => Some JsonText.JNull
  | PBool b => Some (JsonText.JBool b)
  | PInt n => Some (JsonText.JNumber n)
  | PFloat (FFinite negative whole frac exponent) =>
      Some (JsonText.JReal (Json.float_repr negative whole frac exponent))
  | PFloat _ => None
  | PList xs =>
      match map_option to_json xs with
      | Some js => Some (JsonText.JArray js)
      | None => None
      end
  | PDict items =>
      match
        map_option
          (fun kv : pykey * pyval => to_member (key_name (fst kv)) (to_json (snd kv)))
          items
      with
      | Some ms => Some (JsonText.JObject ms)
      | None => None
      end
  | PObject _ => None
  end.

(** ** Sample worlds *)

(** The limits of an interpreter started with its defaults: integers of up
    to 4300 digits, and a recursion limit of 1000 frames, which leaves room
    for some 990 levels of nesting. *)
Definition default_limits : limits :=
  {| int_max_str_digits := 4300; max_nesting := 990 |}.

Definition module_with_version (a : pyval) : module :=
  fun name =>
    if String.eqb name "__version__" then Return a
    else Raise (AttributeError name).

Definition module_without_version : module :=
  fun name => Raise (AttributeError name).

(** [pip show torch] prints the metadata of torch 2.1.0; the other packages
    are unknown to pip, which prints nothing on standard output and exits
    with status 1.  [edge_tts] can be imported and has a version, [torchaudio]
    can be imported and has none, [rvc] cannot be imported. *)
Definition world_sample : world := {|
  sys_executable := "/usr/bin/python3";
  os_exec := fun argv =>
    match argv with
    | [_; _; _; _; "torch"] =>
        Exited 0 ("Name: torch" ++ LFs ++ "Version: 2.1.0" ++ LFs
                  ++ "Summary: Tensors" ++ LFs)%string
    | _ => Exited 1 EmptyString
    end;
  py_import := fun name =>
    if String.eqb name "edge_tts" then Return (module_with_version (PStr "6.1.9"))
    else if String.eqb name "torchaudio" then Return module_without_version
    else Raise (ModuleNotFoundError name);
  sys_limits := default_limits;
  stdout_write := fun _ => None;
  stdout_flush_ok := true
|}.

(** The interpreter named by [sys.executable] cannot be started. *)
Definition world_no_interpreter : world := {|
  sys_executable := "/opt/app/python";
  os_exec := fun argv => RunRaises (FileNotFoundError "/opt/app/python");
  py_import := fun name => Raise (ModuleNotFoundError name);
  sys_limits := default_limits;
  stdout_write := fun _ => None;
  stdout_flush_ok := true
|}.

(** pip knows no package; every module can be imported and has
    [__version__ = a]. *)
Definition world_version_object (a : pyval) : world := {|
  sys_executable := "/usr/bin/python3";
  os_exec := fun argv => Exited 1 EmptyString;
  py_import := fun name => Return (module_with_version a);
  sys_limits := default_limits;
  stdout_write := fun _ => None;
  stdout_flush_ok := true
|}.

(** The integer written as a one followed by [k] zeros. *)
Definition ten_to (k : nat) : Z :=
  Z.of_int (Decimal.Pos (Decimal.D1 (Nat.iter k Decimal.D0 Decimal.Nil))).

(** The sample world with standard output closed on a full device: the
    text is accepted into the buffer and cannot be flushed at exit. *)
Definition world_full_device : world := {|
  sys_executable := sys_executable world_sample;
  os_exec := os_exec world_sample;
  py_import := py_import world_sample;
  sys_limits := default_limits;
  stdout_write := fun _ => None;
  stdout_flush_ok := false
|}.

(** The trace of one lookup: the query, then at most the import. *)
Definition lookup_trace (w : world) (p i : string) (t : list event) : Prop :=
  t = [EvRun (pip_show_argv w p)] \/
  t = [EvRun (pip_show_argv w p); EvImport i].

(** One entry of the output: the lookup of [p] (module [i]) resolved to the
    object [a], written as the JSON value [j]; [a] is text unless it is the
    [__version__] the fallback read, and [j] is a string exactly when [a] is
    text. *)
Definition entry (w : world) (p i : string) (a : pyval) (j : JsonText.json)
  : Prop :=
  resolved w (p, i) a /\
  to_json a = Some j /\
  (is_str a = true \/ fallback_returns w i a) /\
  (is_str a = true <-> exists s, j = JsonText.JString s).

(** The layout of the output for the value texts [ea], [eb], [ec], [ed]:
    one entry per line, two spaces in, in the order of the dict display. *)
Definition output_text (ea eb ec ed : string) : string :=
  ("{" ++ LFs
   ++ "  " ++ JsonText.quoted "rvc-python" ++ ": " ++ ea ++ "," ++ LFs
   ++ "  " ++ JsonText.quoted "edge-tts" ++ ": " ++ eb ++ "," ++ LFs
   ++ "  " ++ JsonText.quoted "torch" ++ ": " ++ ec ++ "," ++ LFs
   ++ "  " ++ JsonText.quoted "torchaudio" ++ ": " ++ ed ++ LFs
   ++ "}" ++ LFs)%string.

(** The text [json.dumps] writes for one item of the dict, against the member
    of the JSON object it stands for. *)
Definition item_text (m : string * JsonText.json) (t : string) : Prop :=
  exists vt,
    JsonText.value (snd m) vt /\
    t = (Json.py_encode_basestring_ascii (fst m) ++ ": " ++ vt)%string.

(** ** Vocabulary of the further properties *)

Fixpoint string_forall (f : ascii -> bool) (s : string) : bool :=
  match s with
  | EmptyString => true
  | String c s' => f c && string_forall f s'
  end.

(** No character of [s] is a line boundary of [str.splitlines]. *)
Definition no_linebreak (s : string) : bool :=
  string_forall (fun c => negb (PyStr.islinebreak c)) s.

(** A printable ASCII character (space to tilde) or a line feed. *)
Definition output_char (c : ascii) : bool :=
  PyStr.between 32 126 c || Ascii.eqb c PyStr.LF.

(** What the fallback of [v] can learn from the import system about the
    module [i]: the [__version__] it reads, if the read succeeds. *)
Definition version_of (w : world) (i : string) : option pyval :=
  match py_import w i with
  | Return m =>
      match m "__version__" with
      | Return a => Some a
      | Raise _ => None
      end
  | Raise _ => None
  end.

(** The dict display of the script for any list of lookups: the values are
    computed left to right, and the first lookup that raises ends it. *)
Fixpoint lookup_all (ls : list (string * string)) : M (list (string * pyval)) :=
  match ls with
  | [] => ret []
  | (p, i) :: ls' =>
      a <- v p i ;;
      d <- lookup_all ls' ;;
      ret ((p, a) :: d)
  end.

(** [ran w ls tr d]: in the world [w] the lookups [ls] all returned, with the
    events [tr] and the items [d]. *)
Inductive ran (w : world)
  : list (string * string) -> list event -> list (string * pyval) -> Prop :=
| ran_nil : ran w [] [] []
| ran_cons p i t a ls tr d :
    v p i w = (t, Return a) ->
    lookup_trace w p i t ->
    ran w ls tr d ->
    ran w ((p, i) :: ls) (t ++ tr) ((p, a) :: d).

(** The text of the dict [d] as [json.dumps] lays it out from the texts [ts]
    of its items, with the line feed [print] adds. *)
Definition printed (ts : list string) : string :=
  (("{" ++ Json.newline_indent 2 1
    ++ String.concat ("," ++ Json.newline_indent 2 1) ts
    ++ Json.newline_indent 2 0 ++ "}") ++ String PyStr.LF EmptyString)%string.

(** Reading back the body of a JSON string literal: the text it denotes up
    to the closing quote, and what follows that quote. *)
Fixpoint read_body (t : string) : option (string * string) :=
  let cons c r :=
    match r with
    | Some (s, rest) => Some (String c s, rest)
    | None => None
    end in
  match t with
  | EmptyString => None
  | String ch t' =>
      if Ascii.eqb ch Json.DQUOTE then Some (EmptyString, t')
      else if Ascii.eqb ch Json.BACKSLASH then
        match t' with
        | String e t'' =>
            if Ascii.eqb e "u" then
              match t'' with
              | String "0" (String "0" (String h (String l rest))) =>
                  match JsonText.hexval h, JsonText.hexval l with
                  | Some x, Some y => cons (ascii_of_N (16 * x + y)) (read_body rest)
                  | _, _ => None
                  end
              | _ => None
              end
            else
              match JsonText.short_escape e with
              | Some c => cons c (read_body t'')
              | None => None
              end
        | EmptyString => None
        end
      else if (32 <=? PyStr.code ch)%N then cons ch (read_body t')
      else None
  end.

(** Reading back a whole string literal. *)
Definition read_string (t : string) : option string :=
  match t with
  | String q body =>
      if Ascii.eqb q Json.DQUOTE then
        match read_body body with
        | Some (s, EmptyString) => Some s
        | _ => None
        end
      else None
  | EmptyString => None
  end.

(** The line of the output for the key [k] and the value text [e]. *)
Definition entry_line (k e : string) : string :=
  ("  " ++ JsonText.quoted k ++ ": " ++ e)%string.

Create Rewrite HintDb strings.

(** Equalities between concatenations that differ by bracketing only. *)
Ltac string_eq :=
  repeat (autorewrite with strings; cbn [String.append]); reflexivity.

(** ** Facts about strings *)

Section StringFacts.

Local Open Scope string_scope.

Lemma append_nil_r (s : string) : s ++ "" = s.
Proof. induction s as [|c s IH]; simpl; [reflexivity | now rewrite IH]. Qed.

Lemma append_assoc (a b c : string) : (a ++ b) ++ c = a ++ (b ++ c).
Proof. induction a as [|x a IH]; simpl; [reflexivity | now rewrite IH]. Qed.

Lemma lower_char_colon (c : ascii) :
  PyStr.lower_char c = ":"%char -> c = ":"%char.
Proof.
  destruct c as [[] [] [] [] [] [] [] []]; vm_compute; intro H;
    solve [reflexivity | discriminate H].
Qed.

Lemma lower_colon_fixed : PyStr.lower_char ":" = ":"%char.
Proof. reflexivity. Qed.

Lemma prefix_cons (a b : ascii) (p s : string) :
  String.prefix (String a p) (String b s) = true ->
  a = b /\ String.prefix p s = true.
Proof.
  cbn [String.prefix].
  destruct (ascii_dec a b) as [->|]; [now split | discriminate].
Qed.

Lemma prefix_nonempty (a : ascii) (p : string) :
  String.prefix (String a p) "" = false.
Proof. reflexivity. Qed.

Lemma partition_first (sep : ascii) (a b : string) :
  has_char sep a = false ->
  PyStr.partition sep (a ++ String sep b) = Some (a, b).
Proof.
  induction a as [|c a IH]; simpl; intro H.
  - now rewrite Ascii.eqb_refl.
  - apply orb_false_iff in H as [Hc Ha].
    rewrite Hc, (IH Ha). reflexivity.
Qed.

(** The [str] methods on the inputs that show their corner cases. *)
Example splitlines_boundaries :
  PyStr.splitlines
    ("a" ++ String PyStr.CR (String PyStr.LF "b")
     ++ String PyStr.LF (String PyStr.CR "c") ++ LFs)
  = ["a"; "b"; ""; "c"]
  /\ PyStr.splitlines "" = []
  /\ PyStr.splitlines LFs = [""]
  /\ PyStr.splitlines ("a" ++ LFs ++ LFs ++ "b") = ["a"; ""; "b"].
Proof. repeat split. Qed.

Example split_at_most_once :
  PyStr.split ":" 1 "a:b:c" = ["a"; "b:c"]
  /\ PyStr.split ":" 1 "abc" = ["abc"]
  /\ PyStr.split ":" 1 ":" = [""; ""].
Proof. repeat split. Qed.

Example strip_both_ends :
  PyStr.strip (" " ++ String Json.TAB "2.1.0 " ++ String PyStr.CR "") = "2.1.0"
  /\ PyStr.strip "   " = ""
  /\ PyStr.strip "a b" = "a b".
Proof. repeat split. Qed.

Example lower_letters_only : PyStr.lower "VeRsIoN: 2.1.0-RC1" = "version: 2.1.0-rc1".
Proof. reflexivity. Qed.

Example version_line_test :
  is_version_line "Version: 2.1.0" = true
  /\ is_version_line "VERSION:" = true
  /\ is_version_line " Version: 2.1.0" = false
  /\ is_version_line "Version : 2.1.0" = false
  /\ is_version_line "Metadata-Version: 2.1" = false.
Proof. repeat split. Qed.

(** A line that passes the test of [v] is a spelling of [version], a colon,
    and a remainder; the colon is the first one of the line. *)
Lemma version_line_shape (l : string) :
  is_version_line l = true ->
  exists key rest,
    l = key ++ String ":" rest /\
    PyStr.lower key = "version" /\
    has_char ":" key = false.
Proof.
  unfold is_version_line, PyStr.startswith. intro H.
  destruct l as [|c1 [|c2 [|c3 [|c4 [|c5 [|c6 [|c7 [|c8 rest]]]]]]]];
    cbn [PyStr.lower] in H;
    repeat (apply prefix_cons in H as [? H]);
    try (rewrite prefix_nonempty in H; discriminate H);
    try discriminate H.
  exists (String c1 (String c2 (String c3 (String c4 (String c5
            (String c6 (String c7 EmptyString))))))), rest.
  match goal with Hc : ":"%char = PyStr.lower_char c8 |- _ =>
    symmetry in Hc; apply lower_char_colon in Hc; subst c8 end.
  split; [reflexivity|]. split.
  - cbn [PyStr.lower]. congruence.
  - cbn [has_char].
    repeat match goal with
    | Hc : _ = PyStr.lower_char ?c |- context [Ascii.eqb ?c ":"] =>
        destruct (Ascii.eqb_spec c ":"%char) as [->|_];
          [rewrite lower_colon_fixed in Hc; discriminate Hc | clear Hc]
    end.
    reflexivity.
Qed.

(** And every such line passes the test. *)
Lemma version_line_built (key rest : string) :
  PyStr.lower key = "version" ->
  is_version_line (key ++ String ":" rest) = true.
Proof.
  intro H. unfold is_version_line, PyStr.startswith.
  destruct key as [|c1 [|c2 [|c3 [|c4 [|c5 [|c6 [|c7 [|c8 key]]]]]]]];
    try discriminate H.
  cbn [PyStr.lower String.append] in *.
  injection H as -> -> -> -> -> -> ->.
  rewrite lower_colon_fixed. cbn [String.prefix].
  repeat match goal with
         | |- context [ascii_dec ?x ?x] =>
             destruct (ascii_dec x x); [|congruence]
         end.
  now destruct (PyStr.lower rest).
Qed.

Lemma lstrip_split (s : string) :
  exists a, s = a ++ PyStr.lstrip s /\ all_space a = true.
Proof.
  induction s as [|c s [a [Hs Ha]]]; simpl.
  - now exists "".
  - destruct (PyStr.isspace c) eqn:Hc.
    + exists (String c a). simpl. rewrite Hc, Ha. now rewrite <- Hs.
    + now exists "".
Qed.

Lemma lstrip_first (s : string) (c : ascii) :
  first_char (PyStr.lstrip s) = Some c -> PyStr.isspace c = false.
Proof.
  induction s as [|x s IH]; simpl; [discriminate|].
  destruct (PyStr.isspace x) eqn:Hx; [exact IH|].
  simpl. intros [= <-]. exact Hx.
Qed.

Lemma rstrip_split (s : string) :
  exists b, s = PyStr.rstrip s ++ b /\ all_space b = true.
Proof.
  induction s as [|c s [b [Hs Hb]]]; simpl.
  - now exists "".
  - destruct (PyStr.rstrip s) as [|y r] eqn:Hr.
    + simpl in Hs. subst b.
      destruct (PyStr.isspace c) eqn:Hc.
      * exists (String c s). simpl. now rewrite Hc, Hb.
      * exists s. now split.
    + exists b. split; [|exact Hb]. simpl. now rewrite Hs at 1.
Qed.

Lemma rstrip_last (s : string) (c : ascii) :
  last_char (PyStr.rstrip s) = Some c -> PyStr.isspace c = false.
Proof.
  induction s as [|x s IH]; simpl; [discriminate|].
  destruct (PyStr.rstrip s) as [|y r] eqn:Hr.
  - destruct (PyStr.isspace x) eqn:Hx; simpl; [discriminate|].
    intros [= <-]. exact Hx.
  - exact IH.
Qed.

Lemma rstrip_first (s : string) (c : ascii) :
  first_char (PyStr.rstrip s) = Some c -> first_char s = Some c.
Proof.
  destruct s as [|x s]; simpl; [discriminate|].
  destruct (PyStr.rstrip s); [destruct (PyStr.isspace x)|]; simpl;
    congruence.
Qed.

(** [strip] removes the whitespace at both ends and nothing else. *)
Lemma strip_trimmed (s : string) : trimmed s (PyStr.strip s).
Proof.
  unfold trimmed, PyStr.strip.
  destruct (lstrip_split s) as [a [Hs Ha]].
  destruct (rstrip_split (PyStr.lstrip s)) as [b [Hl Hb]].
  exists a, b. repeat split; auto.
  - rewrite <- Hl. exact Hs.
  - intros c Hc. apply rstrip_first in Hc. now apply lstrip_first in Hc.
  - apply rstrip_last.
Qed.

End StringFacts.

#[global] Hint Rewrite append_assoc append_nil_r : strings.

(** ** The lookup function, case by case *)

Section Lookup.

Variable w : world.
Variables p i : string.

Lemma scan_find (lines : list string) :
  scan lines =
  match find is_version_line lines with
  | Some l => Some (x <- getitem (PyStr.split PyStr.COLON 1 l) 1 ;;
                    ret (PStr (PyStr.strip x)))
  | None => None
  end.
Proof.
  induction lines as [|l lines IH]; simpl; [reflexivity|].
  destruct (is_version_line l); [reflexivity | exact IH].
Qed.

(** On a line of the shape [key:rest] the [split] has a second item, and the
    indexing cannot fail. *)
Lemma line_value (key rest : string) :
  has_char ":" key = false ->
  (x <- getitem (PyStr.split PyStr.COLON 1 (key ++ String ":" rest)) 1 ;;
   ret (PStr (PyStr.strip x))) w
  = ([], Return (PStr (PyStr.strip rest))).
Proof.
  intro Hkey. unfold bind, getitem. cbn [PyStr.split].
  unfold PyStr.COLON. rewrite (partition_first _ _ _ Hkey). reflexivity.
Qed.

Lemma v_run_raises (e : exn) :
  os_exec w (pip_show_argv w p) = RunRaises e ->
  v p i w = ([EvRun (pip_show_argv w p)], Raise e).
Proof.
  intro H. unfold v, bind, get_sys_executable, subprocess_run.
  cbn [app]. fold (pip_show_argv w p). rewrite H. reflexivity.
Qed.

Lemma v_exited (rc : Z) (out : string) :
  os_exec w (pip_show_argv w p) = Exited rc out ->
  v p i w =
  let (t, r) :=
    match scan (PyStr.splitlines out) with
    | Some found => found w
    | None =>
        try_except (m <- import_ i ;; getattr m "__version__")
          (ret not_installed) w
    end
  in (EvRun (pip_show_argv w p) :: t, r).
Proof.
  intro H. unfold v, bind at 1 2, get_sys_executable, subprocess_run.
  cbn [app]. fold (pip_show_argv w p). rewrite H. cbn [andb stdout].
  destruct (scan (PyStr.splitlines out)) as [found|].
  - now destruct (found w).
  - now destruct (try_except _ _ w).
Qed.

Lemma v_found (rc : Z) (out key rest : string) :
  os_exec w (pip_show_argv w p) = Exited rc out ->
  find is_version_line (PyStr.splitlines out) = Some (key ++ String ":" rest)%string ->
  has_char ":" key = false ->
  v p i w = ([EvRun (pip_show_argv w p)], Return (PStr (PyStr.strip rest))).
Proof.
  intros Hrun Hfind Hkey.
  rewrite (v_exited _ _ Hrun), scan_find, Hfind, (line_value _ _ Hkey).
  reflexivity.
Qed.

Lemma v_fallback_raises (rc : Z) (out : string) (e : exn) :
  os_exec w (pip_show_argv w p) = Exited rc out ->
  find is_version_line (PyStr.splitlines out) = None ->
  fallback_raises w i e ->
  v p i w = ([EvRun (pip_show_argv w p); EvImport i], Return not_installed).
Proof.
  intros Hrun Hfind Hraise.
  rewrite (v_exited _ _ Hrun), scan_find, Hfind.
  unfold try_except, bind, import_, getattr, lift, ret.
  destruct Hraise as [Himp | [m [Himp Hattr]]]; rewrite Himp;
    [|rewrite Hattr]; reflexivity.
Qed.

Lemma v_fallback_returns (rc : Z) (out : string) (a : pyval) :
  os_exec w (pip_show_argv w p) = Exited rc out ->
  find is_version_line (PyStr.splitlines out) = None ->
  fallback_returns w i a ->
  v p i w = ([EvRun (pip_show_argv w p); EvImport i], Return a).
Proof.
  intros Hrun Hfind [m [Himp Hattr]].
  rewrite (v_exited _ _ Hrun), scan_find, Hfind.
  unfold try_except, bind, import_, getattr, lift, ret.
  rewrite Himp, Hattr. reflexivity.
Qed.

(** The fallback either raises or yields an object. *)
Lemma fallback_cases :
  (exists e, fallback_raises w i e) \/ (exists a, fallback_returns w i a).
Proof.
  unfold fallback_raises, fallback_returns.
  destruct (py_import w i) as [m|e] eqn:Himp; [|left; eauto].
  destruct (m "__version__") as [a|e] eqn:Hattr; [right|left]; eauto.
Qed.

(** Once the child process has exited, [v] returns: with the query alone, or
    with the query and the import. *)
Lemma v_exited_returns (rc : Z) (out : string) :
  os_exec w (pip_show_argv w p) = Exited rc out ->
  exists a,
    v p i w = ([EvRun (pip_show_argv w p)], Return a) /\ is_str a = true \/
    v p i w = ([EvRun (pip_show_argv w p); EvImport i], Return a) /\
    (a = not_installed \/ fallback_returns w i a).
Proof.
  intro Hrun.
  destruct (find is_version_line (PyStr.splitlines out)) as [l|] eqn:Hfind.
  - destruct (version_line_shape l) as [key [rest [-> [_ Hkey]]]].
    { apply find_some in Hfind. tauto. }
    exists (PStr (PyStr.strip rest)). left.
    split; [now apply (v_found rc out key rest) | reflexivity].
  - destruct fallback_cases as [[e He] | [a Ha]].
    + exists not_installed. right.
      split; [now apply (v_fallback_raises rc out e) | now left].
    + exists a. right.
      split; [now apply (v_fallback_returns rc out) | now right].
Qed.

End Lookup.

(** Every lookup issues the query, then at most the import; an exception
    that leaves it is the one [subprocess.run] raised. *)
Lemma v_cases (w : world) (p i : string) :
  (exists e,
      os_exec w (pip_show_argv w p) = RunRaises e /\
      v p i w = ([EvRun (pip_show_argv w p)], Raise e)) \/
  (exists rc out a t,
      os_exec w (pip_show_argv w p) = Exited rc out /\
      v p i w = (EvRun (pip_show_argv w p) :: t, Return a) /\
      (t = [] \/ t = [EvImport i])).
Proof.
  destruct (os_exec w (pip_show_argv w p)) as [e|rc out] eqn:Hrun.
  - left. exists e. split; [reflexivity | now apply v_run_raises].
  - right. destruct (v_exited_returns w p i rc out Hrun) as [a [[Hv _]|[Hv _]]];
      exists rc, out, a; [exists [] | exists [EvImport i]]; auto.
Qed.

Lemma no_print_app (t t' : list event) :
  no_print t -> no_print t' -> no_print (t ++ t').
Proof.
  intros H H' text Hin. apply in_app_or in Hin as [Hin|Hin];
    [exact (H text Hin) | exact (H' text Hin)].
Qed.

Lemma v_no_print (w : world) (p i : string) : no_print (trace (v p i w)).
Proof.
  intros text Hin.
  destruct (v_cases w p i) as [(e & _ & Hv) | (rc & out & a & t & _ & Hv & Ht)];
    rewrite Hv in Hin; simpl in Hin.
  - destruct Hin as [Hin|[]]; discriminate Hin.
  - destruct Hin as [Hin|Hin]; [discriminate Hin|].
    destruct Ht as [-> | ->]; simpl in Hin; [contradiction|].
    destruct Hin as [Hin|[]]; discriminate Hin.
Qed.

(** ** The encoder writes JSON *)

Lemma pyval_nested_ind (P : pyval -> Prop) :
  (forall s, P (PStr s)) -> P PNone -> (forall b, P (PBool b)) ->
  (forall n, P (PInt n)) ->
  (forall f, P (PFloat f)) ->
  (forall xs, Forall P xs -> P (PList xs)) ->
  (forall items, Forall (fun kv => P (snd kv)) items -> P (PDict items)) ->
  (forall cls, P (PObject cls)) ->
  forall a, P a.
Proof.
  intros Hstr Hnone Hbool Hint Hfloat Hlist Hdict Hobj.
  fix IH 1.
  intros [s| |b|n|f|xs|items|cls];
    [apply Hstr | exact Hnone | apply Hbool | apply Hint | apply Hfloat
    | | | apply Hobj].
  - apply Hlist.
    induction xs as [|x xs IHxs]; constructor; [apply IH | exact IHxs].
  - apply Hdict.
    induction items as [|[k x] items IHitems]; constructor;
      [apply IH | exact IHitems].
Qed.

Section JsonFacts.

Import JsonText.
Local Open Scope string_scope.

Lemma escape_char_text (c : ascii) : char_text c (Json.escape_char c).
Proof.
  destruct c as [[] [] [] [] [] [] [] []]; cbv [Json.escape_char];
    first
      [ apply char_plain; [now vm_compute | discriminate | discriminate]
      | apply char_short; reflexivity
      | eapply char_unicode; reflexivity ].
Qed.

Lemma escape_chars (s : string) : chars s (Json.escape s).
Proof.
  induction s as [|c s IH]; simpl;
    [constructor | apply chars_cons; [apply escape_char_text | exact IH]].
Qed.

Lemma ws_spaces (n : nat) : ws (Json.spaces n) = true.
Proof. induction n as [|n IH]; simpl; [reflexivity | exact IH]. Qed.

Lemma ws_newline_indent (indent level : nat) :
  ws (Json.newline_indent indent level) = true.
Proof. unfold Json.newline_indent. simpl. apply ws_spaces. Qed.

Lemma normal_digits_ok (d : Decimal.uint) :
  Decimal.unorm d = d -> digits_ok d.
Proof.
  destruct d as [|d| | | | | | | | |]; simpl; auto.
  - discriminate.
  - intro H. destruct d as [|d| | | | | | | | |]; auto;
      rewrite DecimalFacts.unorm_D0 in H;
      match type of H with
      | Decimal.unorm ?u = _ =>
          assert (Hn : u <> Decimal.Nil) by discriminate;
          pose proof (DecimalFacts.nb_digits_unorm u Hn) as Hle;
          rewrite H in Hle; simpl in Hle; lia
      end.
Qed.

Lemma pos_digits_ok (p : positive) : digits_ok (Pos.to_uint p).
Proof.
  apply normal_digits_ok.
  rewrite <- (DecimalPos.Unsigned.to_of (Pos.to_uint p)).
  now rewrite DecimalPos.Unsigned.of_to.
Qed.

Lemma pos_digits_text (p : positive) :
  NilZero.string_of_uint (Pos.to_uint p) = NilEmpty.string_of_uint (Pos.to_uint p).
Proof.
  unfold NilZero.string_of_uint.
  destruct (Pos.to_uint p) eqn:H; try reflexivity.
  now apply DecimalPos.Unsigned.to_uint_nonnil in H.
Qed.

Lemma pos_digits_value (p : positive) : Z.of_uint (Pos.to_uint p) = Z.pos p.
Proof.
  unfold Z.of_uint. now rewrite DecimalPos.Unsigned.of_to.
Qed.

(** [int.__repr__] writes a number of the grammar, with the same value. *)
Lemma int_text_number (n : Z) : number n (NilZero.string_of_int (Z.to_int n)).
Proof.
  destruct n as [|p|p].
  - exact (number_pos (Decimal.D0 Decimal.Nil) I).
  - cbn [Z.to_int NilZero.string_of_int].
    rewrite pos_digits_text, <- (pos_digits_value p) at 1.
    apply number_pos, pos_digits_ok.
  - cbn [Z.to_int NilZero.string_of_int].
    rewrite pos_digits_text.
    change (Z.neg p) with (- Z.pos p)%Z. rewrite <- (pos_digits_value p).
    apply (number_neg _ (pos_digits_ok p)).
Qed.

Lemma int_repr_number (max_str_digits : N) (n : Z) (t : string) :
  Json.int_repr max_str_digits n = Return t -> number n t.
Proof.
  unfold Json.int_repr. destruct (Json.exceeds_limit max_str_digits n);
    [discriminate|].
  intros [= <-]. apply int_text_number.
Qed.

Lemma int_repr_returns (max_str_digits : N) (n : Z) :
  Json.exceeds_limit max_str_digits n = false <->
  exists t, Json.int_repr max_str_digits n = Return t.
Proof.
  unfold Json.int_repr. destruct (Json.exceeds_limit max_str_digits n).
  - split; [discriminate | intros [t H]; discriminate H].
  - split; [now eexists | reflexivity].
Qed.

(** The digits of a natural number, as the grammar wants them. *)
Lemma decimal_digits (n : N) :
  Json.decimal n = NilEmpty.string_of_uint (N.to_uint n) /\
  digits_ok (N.to_uint n).
Proof.
  unfold Json.decimal. destruct n as [|p].
  - split; [reflexivity | exact I].
  - cbn [N.to_uint]. split; [apply pos_digits_text | apply pos_digits_ok].
Qed.

Lemma digits_ok_nonnil (d : Decimal.uint) : digits_ok d -> d <> Decimal.Nil.
Proof. destruct d; cbn; intros H; [contradiction | discriminate ..]. Qed.

Lemma zeros_digits (k : nat) (d : Decimal.uint) :
  Json.zeros k ++ NilEmpty.string_of_uint d
  = NilEmpty.string_of_uint (Nat.iter k Decimal.D0 d).
Proof.
  induction k as [|k IH]; cbn [Json.zeros String.append Nat.iter];
    [reflexivity|].
  cbn [NilEmpty.string_of_uint]. now rewrite IH.
Qed.

Lemma zeros_nonnil (k : nat) (d : Decimal.uint) :
  d <> Decimal.Nil -> Nat.iter k Decimal.D0 d <> Decimal.Nil.
Proof. destruct k; cbn [Nat.iter]; [auto | discriminate]. Qed.

(** The text of a finite float is a number of the grammar. *)
Lemma float_repr_real (negative : bool) (whole : N)
    (frac : option (nat * N)) (exponent : option Z) :
  real (Json.float_repr negative whole frac exponent).
Proof.
  unfold Json.float_repr.
  destruct (decimal_digits whole) as [-> Hwhole].
  apply real_intro.
  - destruct negative; auto.
  - exact Hwhole.
  - destruct frac as [[k n]|]; [|constructor].
    destruct (decimal_digits n) as [-> Hn]. rewrite zeros_digits.
    apply fraction_some, zeros_nonnil, digits_ok_nonnil, Hn.
  - destruct exponent as [e|]; [|constructor].
    destruct (decimal_digits (Z.abs_N e)) as [-> He].
    replace ((if (Z.abs_N e <? 10)%N then "0" else "")
             ++ NilEmpty.string_of_uint (N.to_uint (Z.abs_N e)))
      with (NilEmpty.string_of_uint
              (Nat.iter (if (Z.abs_N e <? 10)%N then 1 else 0) Decimal.D0
                 (N.to_uint (Z.abs_N e))))
      by (destruct (Z.abs_N e <? 10)%N; reflexivity).
    cbn [String.append].
    apply exponent_some.
    + now left.
    + destruct (e <? 0)%Z; auto.
    + apply zeros_nonnil, digits_ok_nonnil, He.
Qed.

Lemma concat_more (sep x y : string) (ys : list string) :
  String.concat sep (x :: y :: ys) = x ++ sep ++ String.concat sep (y :: ys).
Proof. reflexivity. Qed.

(** Values written one per line, separated by commas, are the elements of
    an array. *)
Lemma elements_lines (sp sp' : string) :
  ws sp = true -> ws sp' = true ->
  forall js ts, Forall2 value js ts -> js <> [] ->
  elements js (sp ++ String.concat ("," ++ sp) ts ++ sp').
Proof.
  intros Hsp Hsp'.
  induction js as [|j js IH]; intros ts HF Hne; [congruence|].
  inversion HF as [|? t ? ts' Hv HF']; subst.
  destruct js as [|j' js'].
  - inversion HF'; subst. cbn [String.concat].
    apply elements_one. now apply element_intro.
  - inversion HF' as [|? t' ? ts'' Hv' HF'']; subst.
    rewrite concat_more.
    replace (sp ++ (t ++ ("," ++ sp) ++ String.concat ("," ++ sp) (t' :: ts'')) ++ sp')
      with ((sp ++ t ++ "") ++ "," ++ (sp ++ String.concat ("," ++ sp) (t' :: ts'') ++ sp'))
      by string_eq.
    apply elements_more; [now apply element_intro|].
    apply IH; [now constructor | discriminate].
Qed.

(** Items written one per line, separated by commas, are the members of an
    object. *)
Lemma members_lines (sp sp' : string) :
  ws sp = true -> ws sp' = true ->
  forall ms ts, Forall2 item_text ms ts -> ms <> [] ->
  members ms (sp ++ String.concat ("," ++ sp) ts ++ sp').
Proof.
  intros Hsp Hsp'.
  assert (Hitem : forall k j vt tail, value j vt -> ws tail = true ->
            member (k, j)
              (sp ++ quoted (Json.escape k) ++ "" ++ ":" ++ (" " ++ vt ++ tail))).
  { intros k j vt tail Hv Htail.
    apply member_intro; auto using escape_chars.
    now apply element_intro. }
  induction ms as [|[k j] ms IH]; intros ts HF Hne; [congruence|].
  inversion HF as [|? t ? ts' [vt [Hv ->]] HF']; subst.
  cbn [fst snd] in *. unfold Json.py_encode_basestring_ascii.
  fold (quoted (Json.escape k)).
  destruct ms as [|m' ms'].
  - inversion HF'; subst. cbn [String.concat].
    apply members_one.
    replace (sp ++ (quoted (Json.escape k) ++ ": " ++ vt) ++ sp')
      with (sp ++ quoted (Json.escape k) ++ "" ++ ":" ++ (" " ++ vt ++ sp'))
      by string_eq.
    now apply Hitem.
  - inversion HF' as [|? t' ? ts'' Hv' HF'']; subst.
    rewrite concat_more.
    replace (sp ++ ((quoted (Json.escape k) ++ ": " ++ vt) ++ ("," ++ sp)
                    ++ String.concat ("," ++ sp) (t' :: ts'')) ++ sp')
      with ((sp ++ quoted (Json.escape k) ++ "" ++ ":" ++ (" " ++ vt ++ ""))
            ++ "," ++ (sp ++ String.concat ("," ++ sp) (t' :: ts'') ++ sp'))
      by string_eq.
    apply members_more; [now apply Hitem|].
    apply IH; [now constructor | discriminate].
Qed.

(** The levels at which a list or a dict may stand. *)
Lemma within_nesting (lim : limits) (level room : nat) :
  (level + S room <= S (max_nesting lim))%nat ->
  (max_nesting lim <? level)%nat = false.
Proof. intro H. apply Nat.ltb_ge. lia. Qed.

Lemma iterencode_list (lim : limits) (indent level : nat)
    (x : pyval) (xs : list pyval) :
  Json.iterencode lim indent level (PList (x :: xs)) =
  if (max_nesting lim <? level)%nat then Raise RecursionError
  else
    match map_result (Json.iterencode lim indent (S level)) (x :: xs) with
    | Raise e => Raise e
    | Return ts =>
        Return ("[" ++ (Json.newline_indent indent (S level)
                        ++ String.concat ("," ++ Json.newline_indent indent (S level)) ts
                        ++ Json.newline_indent indent level) ++ "]")
    end.
Proof.
  cbn [Json.iterencode]. destruct (max_nesting lim <? level)%nat; [reflexivity|].
  destruct (map_result _ (x :: xs)); [f_equal; string_eq | reflexivity].
Qed.

Lemma iterencode_dict (lim : limits) (indent level : nat)
    (kv : pykey * pyval) (items : list (pykey * pyval)) :
  Json.iterencode lim indent level (PDict (kv :: items)) =
  if (max_nesting lim <? level)%nat then Raise RecursionError
  else
    match map_result (Json.encode_member lim indent (S level)) (kv :: items) with
    | Raise e => Raise e
    | Return ts =>
        Return ("{" ++ (Json.newline_indent indent (S level)
                        ++ String.concat ("," ++ Json.newline_indent indent (S level)) ts
                        ++ Json.newline_indent indent level) ++ "}")
    end.
Proof.
  cbn [Json.iterencode]. destruct (max_nesting lim <? level)%nat; [reflexivity|].
  change (fun kv0 : pykey * pyval =>
            Json.encode_pair (Json.key_text (int_max_str_digits lim) (fst kv0))
              (Json.iterencode lim indent (S level) (snd kv0)))
    with (Json.encode_member lim indent (S level)).
  destruct (map_result _ (kv :: items)); [f_equal; string_eq | reflexivity].
Qed.

(** An item that was written, taken apart. *)
Lemma encode_pair_returns (key value : result string) (t : string) :
  Json.encode_pair key value = Return t ->
  exists k vt,
    key = Return k /\ value = Return vt /\
    t = Json.py_encode_basestring_ascii k ++ ": " ++ vt.
Proof.
  unfold Json.encode_pair. destruct key as [k|]; [|discriminate].
  destruct value as [vt|]; [|discriminate].
  intros [= <-]. now exists k, vt.
Qed.

(** The text of a key is the name the key is written as. *)
Lemma key_text_name (max_str_digits : N) (k : pykey) (t : string) :
  Json.key_text max_str_digits k = Return t -> key_name k = Some t.
Proof.
  destruct k as [s| |[]|n|f|cls]; cbn [Json.key_text key_name];
    try (intros [= <-]; reflexivity).
  unfold Json.int_repr. destruct (Json.exceeds_limit max_str_digits n);
    [discriminate|].
  now intros [= <-].
Qed.

Lemma key_text_returns (max_str_digits : N) (k : pykey) :
  key_ok max_str_digits k = true <->
  exists t, Json.key_text max_str_digits k = Return t.
Proof.
  destruct k as [s| |[]|n|f|cls]; cbn [Json.key_text key_ok];
    try (split; [now eexists | reflexivity]).
  - rewrite negb_true_iff. apply int_repr_returns.
  - split; [discriminate | intros [t H]; discriminate H].
Qed.

(** Whatever the encoder writes for an object is a JSON value, the one
    [to_json] names. *)
Lemma iterencode_value (lim : limits) (indent : nat) (a : pyval) :
  forall level t,
    Json.iterencode lim indent level a = Return t ->
    finite_floats a = true ->
    exists j, to_json a = Some j /\ value j t.
Proof.
  induction a as [s| |b|n|f|xs IHxs|items IHitems|cls] using pyval_nested_ind;
    intros level t H Hfin.
  - injection H as <-. exists (JString s). split; [reflexivity|].
    apply value_string, escape_chars.
  - injection H as <-. exists JNull. split; constructor.
  - exists (JBool b). split; [reflexivity|].
    destruct b; injection H as <-; constructor.
  - exists (JNumber n). split; [reflexivity|].
    apply value_number, (int_repr_number _ n t H).
  - destruct f as [|negative|negative whole frac exponent];
      try discriminate Hfin.
    injection H as <-. eexists. split; [reflexivity|].
    apply value_real, float_repr_real.
  - destruct xs as [|x xs].
    { cbn [Json.iterencode] in H.
      destruct (max_nesting lim <? level)%nat; [discriminate H|].
      injection H as <-. exists (JArray []). split; [reflexivity|].
      exact (value_array_empty "" eq_refl). }
    rewrite iterencode_list in H.
    destruct (max_nesting lim <? level)%nat; [discriminate H|].
    remember (x :: xs) as ys eqn:Hys.
    destruct (map_result (Json.iterencode lim indent (S level)) ys)
      as [ts|e] eqn:Hts; [|discriminate H].
    injection H as <-.
    assert (Hfin' : forallb finite_floats ys = true)
      by (subst ys; exact Hfin).
    assert (Hjs : exists js, map_option to_json ys = Some js /\ Forall2 value js ts).
    { clear Hys Hfin. revert ts Hts Hfin'.
      induction IHxs as [|y ys Hy _ IH]; intros ts Hts Hfin; cbn in Hts.
      - injection Hts as <-. exists []. split; [reflexivity | constructor].
      - destruct (Json.iterencode lim indent (S level) y)
          as [t|] eqn:Ht; [|discriminate].
        destruct (map_result _ ys) as [ts'|]; [|discriminate].
        injection Hts as <-.
        cbn [forallb] in Hfin. apply andb_true_iff in Hfin as [Hfy Hfys].
        destruct (Hy _ _ Ht Hfy) as [j [Hj Hv]].
        destruct (IH _ eq_refl Hfys) as [js [Hjs HF]].
        exists (j :: js). cbn. rewrite Hj, Hjs. split; [reflexivity|].
        now constructor. }
    destruct Hjs as [js [Hjs HF]].
    exists (JArray js). split.
    + subst ys. cbn [to_json]. now rewrite Hjs.
    + change (value (JArray js)
                ("[" ++ (Json.newline_indent indent (S level)
                         ++ String.concat ("," ++ Json.newline_indent indent (S level)) ts
                         ++ Json.newline_indent indent level) ++ "]")).
      apply value_array, elements_lines; auto using ws_newline_indent.
      intros ->. subst ys. cbn in Hjs.
      destruct (to_json x); [destruct (map_option to_json xs)|];
        discriminate Hjs.
  - destruct items as [|kv items].
    { cbn [Json.iterencode] in H.
      destruct (max_nesting lim <? level)%nat; [discriminate H|].
      injection H as <-. exists (JObject []). split; [reflexivity|].
      exact (value_object_empty "" eq_refl). }
    rewrite iterencode_dict in H.
    destruct (max_nesting lim <? level)%nat; [discriminate H|].
    remember (kv :: items) as ys eqn:Hys.
    destruct (map_result (Json.encode_member lim indent (S level)) ys)
      as [ts|e] eqn:Hts; [|discriminate H].
    injection H as <-.
    assert (Hfin' : forallb (fun kv : pykey * pyval => finite_floats (snd kv)) ys
                    = true)
      by (subst ys; exact Hfin).
    assert (Hms : exists ms,
               map_option
                 (fun kv : pykey * pyval =>
                    to_member (key_name (fst kv)) (to_json (snd kv))) ys
               = Some ms /\ Forall2 item_text ms ts).
    { clear Hys Hfin. revert ts Hts Hfin'.
      induction IHitems as [|[k y] ys Hy _ IH]; intros ts Hts Hfin;
        cbn [map_result] in Hts.
      - injection Hts as <-. exists []. split; [reflexivity | constructor].
      - destruct (Json.encode_member lim indent (S level) (k, y))
          as [t|] eqn:Ht; [|discriminate].
        destruct (map_result _ ys) as [ts'|]; [|discriminate].
        injection Hts as <-.
        cbn [forallb snd] in Hfin. apply andb_true_iff in Hfin as [Hfy Hfys].
        apply encode_pair_returns in Ht as (kt & vt & Hk & Hv & ->).
        cbn [fst snd] in Hk, Hv, Hy.
        destruct (Hy _ _ Hv Hfy) as [j [Hj Hval]].
        destruct (IH _ eq_refl Hfys) as [ms [Hms HF]].
        exists ((kt, j) :: ms). cbn [map_option fst snd].
        rewrite (key_text_name _ _ _ Hk), Hj, Hms. split; [reflexivity|].
        constructor; [|exact HF]. exists vt. now split. }
    destruct Hms as [ms [Hms HF]].
    exists (JObject ms). split.
    + subst ys. cbn [to_json]. now rewrite Hms.
    + change (value (JObject ms)
                ("{" ++ (Json.newline_indent indent (S level)
                         ++ String.concat ("," ++ Json.newline_indent indent (S level)) ts
                         ++ Json.newline_indent indent level) ++ "}")).
      apply value_object, members_lines; auto using ws_newline_indent.
      intros ->. subst ys. cbn in Hms.
      destruct (to_member _ _); [destruct (map_option _ items)|];
        discriminate Hms.
  - discriminate H.
Qed.

(** The encoder has a text for every object it has rules for, nested no
    deeper than the limit allows. *)
Lemma iterencode_encodable (lim : limits) (indent : nat) (a : pyval) :
  encodable (int_max_str_digits lim) a = true ->
  forall level room,
    fits room a = true -> (level + room <= S (max_nesting lim))%nat ->
    exists t, Json.iterencode lim indent level a = Return t.
Proof.
  induction a as [s| |b|n|f|xs IHxs|items IHitems|cls] using pyval_nested_ind;
    intros Henc level room Hfit Hroom;
    [now eexists | now eexists | destruct b; now eexists | | now eexists
    | | | discriminate Henc].
  - cbn [encodable] in Henc. apply negb_true_iff in Henc.
    now apply int_repr_returns.
  - cbn [encodable fits] in Henc, Hfit.
    destruct room as [|room]; [discriminate Hfit|].
    cbn [Json.iterencode]. rewrite (within_nesting lim level room Hroom).
    assert (Hts : exists ts,
               map_result (Json.iterencode lim indent (S level)) xs = Return ts).
    { induction IHxs as [|y ys Hy _ IH]; cbn [map_result forallb] in *;
        [now eexists|].
      apply andb_true_iff in Henc as [Hy' Hys].
      apply andb_true_iff in Hfit as [Fy Fys].
      destruct (Hy Hy' (S level) room Fy) as [t ->]; [lia|].
      destruct (IH Hys Fys) as [ts ->]. now eexists. }
    destruct Hts as [ts ->]. destruct xs; now eexists.
  - cbn [encodable fits] in Henc, Hfit.
    destruct room as [|room]; [discriminate Hfit|].
    cbn [Json.iterencode]. rewrite (within_nesting lim level room Hroom).
    change (fun kv : pykey * pyval =>
              Json.encode_pair (Json.key_text (int_max_str_digits lim) (fst kv))
                (Json.iterencode lim indent (S level) (snd kv)))
      with (Json.encode_member lim indent (S level)).
    assert (Hts : exists ts,
               map_result (Json.encode_member lim indent (S level)) items
               = Return ts).
    { induction IHitems as [|[k y] ys Hy _ IH]; cbn [map_result forallb] in *;
        [now eexists|].
      apply andb_true_iff in Henc as [Hy' Hys].
      apply andb_true_iff in Hy' as [Hk Hy'].
      apply andb_true_iff in Hfit as [Fy Fys].
      cbn [fst snd] in Hk, Hy', Fy, Hy.
      unfold Json.encode_member at 1. cbn [fst snd].
      apply key_text_returns in Hk as [kt ->].
      destruct (Hy Hy' (S level) room Fy) as [t ->]; [lia|].
      destruct (IH Hys Fys) as [ts ->]. now eexists. }
    destruct Hts as [ts ->]. destruct items; now eexists.
Qed.

Lemma iterencode_serializable (lim : limits) (indent : nat) (a : pyval) :
  serializable lim a = true ->
  exists t, Json.iterencode lim indent 1 a = Return t.
Proof.
  unfold serializable. intro H. apply andb_true_iff in H as [Henc Hfit].
  apply (iterencode_encodable lim indent a Henc 1 (max_nesting lim) Hfit).
  lia.
Qed.

End JsonFacts.

(** ** The script, step by step *)

Section Script.

Variable w : world.

(** The script is the four lookups in a row, each one run only if the ones
    before it returned, then the serialisation, then the output. *)
Lemma script_steps :
  script w =
  let (t1, r1) := v "rvc-python" "rvc" w in
  match r1 with
  | Raise e => (t1, Raise e)
  | Return a =>
  let (t2, r2) := v "edge-tts" "edge_tts" w in
  match r2 with
  | Raise e => (t1 ++ t2, Raise e)
  | Return b =>
  let (t3, r3) := v "torch" "torch" w in
  match r3 with
  | Raise e => (t1 ++ t2 ++ t3, Raise e)
  | Return c =>
  let (t4, r4) := v "torchaudio" "torchaudio" w in
  match r4 with
  | Raise e => (t1 ++ t2 ++ t3 ++ t4, Raise e)
  | Return d =>
  match
    Json.encode_items (sys_limits w) 2 1
      [("rvc-python", a); ("edge-tts", b); ("torch", c); ("torchaudio", d)]
  with
  | Raise e => (t1 ++ t2 ++ t3 ++ t4, Raise e)
  | Return ts =>
      let text := (("{" ++ Json.newline_indent 2 1
                    ++ String.concat ("," ++ Json.newline_indent 2 1) ts
                    ++ Json.newline_indent 2 0 ++ "}")
                   ++ String PyStr.LF EmptyString)%string in
      (t1 ++ t2 ++ t3 ++ t4 ++ [EvPrint text],
       match stdout_write w text with
       | Some e => Raise e
       | None => Return tt
       end)
  end end end end end.
Proof.
  unfold script, bind.
  destruct (v "rvc-python" "rvc" w) as [t1 [a|e]]; [|reflexivity].
  destruct (v "edge-tts" "edge_tts" w) as [t2 [b|e]]; [|reflexivity].
  destruct (v "torch" "torch" w) as [t3 [c|e]]; [|reflexivity].
  destruct (v "torchaudio" "torchaudio" w) as [t4 [d|e]]; [|reflexivity].
  unfold Json.dumps.
  destruct (Json.encode_items _ 2 1 _) as [ts|e]; unfold ret, raise, print;
    cbn [app]; now rewrite ?List.app_nil_r.
Qed.

End Script.

(** ** Properties of the lookup *)

(** [find] picks the first line that passes the test: no line before it
    does. *)
Lemma find_is_first (lines : list string) (l : string) :
  find is_version_line lines = Some l <->
  exists before after,
    lines = before ++ l :: after /\
    is_version_line l = true /\
    Forall (fun x => is_version_line x = false) before.
Proof.
  split.
  - induction lines as [|x lines IH]; cbn [find]; [discriminate|].
    destruct (is_version_line x) eqn:Hx.
    + intros [= ->]. exists [], lines. repeat split; auto.
    + intro H. destruct (IH H) as (before & after & -> & Hl & Hb).
      exists (x :: before), after. repeat split; auto.
  - intros (before & after & -> & Hl & Hb).
    induction Hb as [|x before Hx _ IH]; cbn [app find].
    + now rewrite Hl.
    + now rewrite Hx.
Qed.

(** C1.  When the output of [pip show] has a line that starts, whatever the
    case of its letters, with [version:], the lookup returns the text that
    follows the first colon of the first such line, trimmed of the whitespace
    around it. *)
Theorem C1_version_line_resolved
    (w : world) (p i : string) (rc : Z) (out l : string) :
  os_exec w (pip_show_argv w p) = Exited rc out ->
  find is_version_line (PyStr.splitlines out) = Some l ->
  exists key rest,
    l = (key ++ ":" ++ rest)%string /\
    PyStr.lower key = "version" /\
    has_char ":" key = false /\
    outcome (v p i w) = Return (PStr (PyStr.strip rest)) /\
    trimmed rest (PyStr.strip rest).
Proof.
  intros Hrun Hfind.
  destruct (version_line_shape l) as [key [rest [Hl [Hlow Hkey]]]].
  { apply find_some in Hfind. tauto. }
  exists key, rest. repeat split; auto using strip_trimmed.
  subst l. now rewrite (v_found w p i rc out key rest).
Qed.

Lemma C1_version_line_witness :
  exists key rest,
    "Version: 2.1.0" = (key ++ ":" ++ rest)%string /\
    PyStr.lower key = "version" /\
    has_char ":" key = false /\
    outcome (v "torch" "torch" world_sample) = Return (PStr (PyStr.strip rest)) /\
    trimmed rest (PyStr.strip rest).
Proof.
  apply (C1_version_line_resolved world_sample "torch" "torch" 0
           ("Name: torch" ++ LFs ++ "Version: 2.1.0" ++ LFs
            ++ "Summary: Tensors" ++ LFs)%string "Version: 2.1.0");
    reflexivity.
Defined.

(** The example of the specification: the line [Version: 2.1.0] resolves to
    [2.1.0]. *)
Example torch_resolves_to_2_1_0 :
  v "torch" "torch" world_sample
  = ([EvRun ["/usr/bin/python3"; "-m"; "pip"; "show"; "torch"]],
     Return (PStr "2.1.0")).
Proof. reflexivity. Qed.

(** C2.  When no line of the output passes the test and the fallback (the
    import, or the read of [__version__]) raises, the lookup returns the text
    [not installed]. *)
Theorem C2_sentinel_when_nothing_resolves
    (w : world) (p i : string) (rc : Z) (out : string) (e : exn) :
  os_exec w (pip_show_argv w p) = Exited rc out ->
  find is_version_line (PyStr.splitlines out) = None ->
  fallback_raises w i e ->
  outcome (v p i w) = Return (PStr "not installed").
Proof.
  intros Hrun Hfind Hraise.
  now rewrite (v_fallback_raises w p i rc out e).
Qed.

Lemma C2_sentinel_witness :
  outcome (v "rvc-python" "rvc" world_sample) = Return (PStr "not installed").
Proof.
  apply (C2_sentinel_when_nothing_resolves world_sample "rvc-python" "rvc" 1
           EmptyString (ModuleNotFoundError "rvc")).
  - reflexivity.
  - reflexivity.
  - left. reflexivity.
Defined.

(** C3.  Whatever exception [e] the fallback raises, a lookup that enters the
    fallback returns [not installed]; and an exception that does leave the
    lookup is the one [subprocess.run] raised, never one of the fallback. *)
Theorem C3_fallback_exceptions_absorbed
    (w : world) (p i : string) (e : exn) :
  fallback_raises w i e ->
  (In (EvImport i) (trace (v p i w)) ->
   outcome (v p i w) = Return (PStr "not installed")) /\
  (forall e', outcome (v p i w) = Raise e' ->
              os_exec w (pip_show_argv w p) = RunRaises e' /\
              ~ In (EvImport i) (trace (v p i w))).
Proof.
  intro Hraise.
  destruct (os_exec w (pip_show_argv w p)) as [e0|rc out] eqn:Hrun.
  - rewrite (v_run_raises w p i e0 Hrun). cbn [trace outcome fst snd]. split.
    + intros [Hin|[]]. discriminate Hin.
    + intros e' [= <-]. split; [reflexivity|].
      intros [Hin|[]]. discriminate Hin.
  - destruct (find is_version_line (PyStr.splitlines out)) as [l|] eqn:Hfind.
    + destruct (version_line_shape l) as [key [rest [-> [_ Hkey]]]].
      { apply find_some in Hfind. tauto. }
      rewrite (v_found w p i rc out key rest Hrun Hfind Hkey).
      cbn [trace outcome fst snd]. split.
      * intros [Hin|[]]. discriminate Hin.
      * intros e' He'. discriminate He'.
    + rewrite (v_fallback_raises w p i rc out e Hrun Hfind Hraise).
      cbn [trace outcome fst snd]. split; [reflexivity|].
      intros e' He'. discriminate He'.
Qed.

Lemma C3_fallback_exceptions_witness :
  (In (EvImport "torchaudio") (trace (v "torchaudio" "torchaudio" world_sample)) ->
   outcome (v "torchaudio" "torchaudio" world_sample)
   = Return (PStr "not installed")) /\
  (forall e', outcome (v "torchaudio" "torchaudio" world_sample) = Raise e' ->
              os_exec world_sample (pip_show_argv world_sample "torchaudio")
              = RunRaises e' /\
              ~ In (EvImport "torchaudio")
                  (trace (v "torchaudio" "torchaudio" world_sample))).
Proof.
  apply (C3_fallback_exceptions_absorbed world_sample "torchaudio" "torchaudio"
           (AttributeError "__version__")).
  right. exists module_without_version. split; reflexivity.
Defined.

(** Without a version line the lookup issues the query and the import. *)
Lemma v_trace_without_version_line
    (w : world) (p i : string) (rc : Z) (out : string) :
  os_exec w (pip_show_argv w p) = Exited rc out ->
  find is_version_line (PyStr.splitlines out) = None ->
  trace (v p i w) = [EvRun (pip_show_argv w p); EvImport i].
Proof.
  intros Hrun Hfind.
  destruct (fallback_cases w i) as [[e He] | [a Ha]].
  - now rewrite (v_fallback_raises w p i rc out e).
  - now rewrite (v_fallback_returns w p i rc out a).
Qed.

(** With a version line the lookup issues the query alone and returns the
    stripped remainder of the line. *)
Lemma v_with_version_line
    (w : world) (p i : string) (rc : Z) (out l : string) :
  os_exec w (pip_show_argv w p) = Exited rc out ->
  find is_version_line (PyStr.splitlines out) = Some l ->
  exists key rest,
    l = (key ++ ":" ++ rest)%string /\ has_char ":" key = false /\
    v p i w = ([EvRun (pip_show_argv w p)], Return (PStr (PyStr.strip rest))).
Proof.
  intros Hrun Hfind.
  destruct (version_line_shape l) as [key [rest [-> [_ Hkey]]]].
  { apply find_some in Hfind. tauto. }
  exists key, rest. repeat split; auto.
  now apply (v_found w p i rc out key rest).
Qed.

(** C6.  Once [pip show] has exited, the import is attempted exactly when no
    line of its output passes the test; when a line does, the remainder of
    the first such line (empty or not) is returned and nothing is
    imported. *)
Theorem C6_fallback_iff_no_version_line
    (w : world) (p i : string) (rc : Z) (out : string) :
  os_exec w (pip_show_argv w p) = Exited rc out ->
  ((exists name, In (EvImport name) (trace (v p i w))) <->
   find is_version_line (PyStr.splitlines out) = None) /\
  (find is_version_line (PyStr.splitlines out) = None ->
   trace (v p i w) = [EvRun (pip_show_argv w p); EvImport i]) /\
  (forall l, find is_version_line (PyStr.splitlines out) = Some l ->
     exists key rest,
       l = (key ++ ":" ++ rest)%string /\ has_char ":" key = false /\
       v p i w = ([EvRun (pip_show_argv w p)], Return (PStr (PyStr.strip rest)))).
Proof.
  intro Hrun.
  pose proof (v_trace_without_version_line w p i rc out Hrun) as Hnone.
  pose proof (v_with_version_line w p i rc out) as Hsome.
  repeat split; auto.
  - intros [name Hin].
    destruct (find is_version_line (PyStr.splitlines out)) as [l|] eqn:Hfind;
      [|reflexivity].
    destruct (Hsome l Hrun eq_refl) as [key [rest [_ [_ Hv]]]].
    rewrite Hv in Hin. destruct Hin as [Hin|[]]. discriminate Hin.
  - intro Hfind. exists i. rewrite (Hnone Hfind). right. now left.
Qed.

Lemma C6_fallback_iff_witness :
  ((exists name, In (EvImport name) (trace (v "edge-tts" "edge_tts" world_sample)))
   <-> find is_version_line (PyStr.splitlines EmptyString) = None) /\
  (find is_version_line (PyStr.splitlines EmptyString) = None ->
   trace (v "edge-tts" "edge_tts" world_sample)
   = [EvRun (pip_show_argv world_sample "edge-tts"); EvImport "edge_tts"]) /\
  (forall l, find is_version_line (PyStr.splitlines EmptyString) = Some l ->
     exists key rest,
       l = (key ++ ":" ++ rest)%string /\ has_char ":" key = false /\
       v "edge-tts" "edge_tts" world_sample
       = ([EvRun (pip_show_argv world_sample "edge-tts")],
          Return (PStr (PyStr.strip rest)))).
Proof.
  apply (C6_fallback_iff_no_version_line world_sample "edge-tts" "edge_tts" 1
           EmptyString).
  reflexivity.
Defined.

(** An empty remainder is returned as it is: the module is not consulted even
    though it has a version. *)
Example empty_remainder_is_returned :
  let w := {| sys_executable := "python";
              os_exec := fun _ => Exited 0 ("Name: x" ++ LFs ++ "VERSION:" ++ LFs)%string;
              py_import := fun _ => Return (module_with_version (PStr "1.0"));
              sys_limits := default_limits;
              stdout_write := fun _ => None;
              stdout_flush_ok := true |} in
  v "x" "x" w = ([EvRun ["python"; "-m"; "pip"; "show"; "x"]], Return (PStr "")).
Proof. reflexivity. Qed.

(** C7 (as amended).  When no line of the output passes the test and the
    module imports and has a [__version__], the lookup returns that object
    itself, unconverted: a text when, and only when, the attribute is a text. *)
Theorem C7_fallback_returns_attribute_itself
    (w : world) (p i : string) (rc : Z) (out : string) (a : pyval) :
  os_exec w (pip_show_argv w p) = Exited rc out ->
  find is_version_line (PyStr.splitlines out) = None ->
  fallback_returns w i a ->
  outcome (v p i w) = Return a.
Proof.
  intros Hrun Hfind Hret.
  now rewrite (v_fallback_returns w p i rc out a).
Qed.

Lemma C7_fallback_returns_witness :
  outcome (v "edge-tts" "edge_tts" world_sample) = Return (PStr "6.1.9").
Proof.
  apply (C7_fallback_returns_attribute_itself world_sample "edge-tts" "edge_tts"
           1 EmptyString (PStr "6.1.9")).
  - reflexivity.
  - reflexivity.
  - exists (module_with_version (PStr "6.1.9")). split; reflexivity.
Defined.

(** C7 as stated fails: a module whose [__version__] is [None] resolves to
    [None], not to [str(None)], which is the text [None]. *)
Lemma C7_string_form_counterexample :
  let w := world_version_object PNone in
  os_exec w (pip_show_argv w "torch") = Exited 1 EmptyString /\
  find is_version_line (PyStr.splitlines EmptyString) = None /\
  fallback_returns w "torch" PNone /\
  outcome (v "torch" "torch" w) = Return PNone /\
  outcome (v "torch" "torch" w) <> Return (PStr "None").
Proof.
  cbv zeta. repeat split.
  - exists (module_with_version PNone). split; reflexivity.
  - discriminate.
Qed.

(** C10.  The exit status of [pip show] plays no part: a query that exited,
    with whatever status, makes the lookup return; the lookup is the same
    for any other status with the same output; and an output without a
    version line leads to the import. *)
Theorem C10_exit_status_not_inspected
    (w : world) (p i : string) (rc : Z) (out : string) :
  os_exec w (pip_show_argv w p) = Exited rc out ->
  (exists a, outcome (v p i w) = Return a) /\
  (forall w' rc',
      sys_executable w' = sys_executable w ->
      os_exec w' (pip_show_argv w' p) = Exited rc' out ->
      py_import w' i = py_import w i ->
      v p i w' = v p i w) /\
  (find is_version_line (PyStr.splitlines out) = None ->
   trace (v p i w) = [EvRun (pip_show_argv w p); EvImport i]).
Proof.
  intro Hrun. split; [|split].
  - destruct (v_exited_returns w p i rc out Hrun) as [a [[Hv _]|[Hv _]]];
      exists a; now rewrite Hv.
  - intros w' rc' Hexe Hrun' Himp.
    assert (Hargv : pip_show_argv w' p = pip_show_argv w p)
      by (unfold pip_show_argv; now rewrite Hexe).
    destruct (find is_version_line (PyStr.splitlines out)) as [l|] eqn:Hfind.
    + destruct (version_line_shape l) as [key [rest [-> [_ Hkey]]]].
      { apply find_some in Hfind. tauto. }
      rewrite (v_found w p i rc out key rest Hrun Hfind Hkey).
      rewrite (v_found w' p i rc' out key rest Hrun' Hfind Hkey).
      now rewrite Hargv.
    + destruct (fallback_cases w i) as [[e He] | [a Ha]].
      * rewrite (v_fallback_raises w p i rc out e Hrun Hfind He).
        rewrite (v_fallback_raises w' p i rc' out e Hrun' Hfind);
          [now rewrite Hargv|].
        unfold fallback_raises in *. now rewrite Himp.
      * rewrite (v_fallback_returns w p i rc out a Hrun Hfind Ha).
        rewrite (v_fallback_returns w' p i rc' out a Hrun' Hfind);
          [now rewrite Hargv|].
        unfold fallback_returns in *. now rewrite Himp.
  - now apply (v_trace_without_version_line w p i rc out).
Qed.

Lemma C10_exit_status_witness :
  (exists a, outcome (v "rvc-python" "rvc" world_sample) = Return a) /\
  (forall w' rc',
      sys_executable w' = sys_executable world_sample ->
      os_exec w' (pip_show_argv w' "rvc-python") = Exited rc' EmptyString ->
      py_import w' "rvc" = py_import world_sample "rvc" ->
      v "rvc-python" "rvc" w' = v "rvc-python" "rvc" world_sample) /\
  (find is_version_line (PyStr.splitlines EmptyString) = None ->
   trace (v "rvc-python" "rvc" world_sample)
   = [EvRun (pip_show_argv world_sample "rvc-python"); EvImport "rvc"]).
Proof.
  apply (C10_exit_status_not_inspected world_sample "rvc-python" "rvc" 1
           EmptyString).
  reflexivity.
Defined.

(** With [check=True] the same call would have raised on that status; the
    script does not pass it. *)
Example checked_run_would_raise :
  outcome (subprocess_run (pip_show_argv world_sample "rvc-python") true world_sample)
  = Raise (OtherException "CalledProcessError") /\
  outcome (subprocess_run (pip_show_argv world_sample "rvc-python") false world_sample)
  = Return {| args := pip_show_argv world_sample "rvc-python";
              returncode := 1; stdout := EmptyString |}.
Proof. split; reflexivity. Qed.

(** ** Properties of the script *)

Section Output.

Import JsonText.
Local Open Scope string_scope.

Lemma encode_items_four (limit : limits) (indent level : nat)
    (k1 k2 k3 k4 : string) (a b c d : pyval) (ts : list string) :
  Json.encode_items limit indent level [(k1, a); (k2, b); (k3, c); (k4, d)]
  = Return ts ->
  exists ea eb ec ed,
    Json.iterencode limit indent level a = Return ea /\
    Json.iterencode limit indent level b = Return eb /\
    Json.iterencode limit indent level c = Return ec /\
    Json.iterencode limit indent level d = Return ed /\
    ts = [Json.py_encode_basestring_ascii k1 ++ ": " ++ ea;
          Json.py_encode_basestring_ascii k2 ++ ": " ++ eb;
          Json.py_encode_basestring_ascii k3 ++ ": " ++ ec;
          Json.py_encode_basestring_ascii k4 ++ ": " ++ ed].
Proof.
  unfold Json.encode_items, Json.encode_item, Json.encode_pair.
  cbn [map_result fst snd].
  destruct (Json.iterencode limit indent level a) as [ea|]; [|discriminate].
  destruct (Json.iterencode limit indent level b) as [eb|]; [|discriminate].
  destruct (Json.iterencode limit indent level c) as [ec|]; [|discriminate].
  destruct (Json.iterencode limit indent level d) as [ed|]; [|discriminate].
  intros [= <-]. now exists ea, eb, ec, ed.
Qed.

Lemma encode_items_four_returns (limit : limits) (indent : nat)
    (k1 k2 k3 k4 : string) (a b c d : pyval) :
  serializable limit a = true -> serializable limit b = true ->
  serializable limit c = true -> serializable limit d = true ->
  exists ts,
    Json.encode_items limit indent 1 [(k1, a); (k2, b); (k3, c); (k4, d)]
    = Return ts.
Proof.
  intros Ha Hb Hc Hd.
  unfold Json.encode_items, Json.encode_item, Json.encode_pair.
  cbn [map_result fst snd].
  destruct (iterencode_serializable limit indent a Ha) as [ea ->].
  destruct (iterencode_serializable limit indent b Hb) as [eb ->].
  destruct (iterencode_serializable limit indent c Hc) as [ec ->].
  destruct (iterencode_serializable limit indent d Hd) as [ed ->].
  now eexists.
Qed.

(** The text the script prints, from the texts of the four values. *)
Lemma dumps_layout (ea eb ec ed : string) :
  ("{" ++ Json.newline_indent 2 1
   ++ String.concat ("," ++ Json.newline_indent 2 1)
        [Json.py_encode_basestring_ascii "rvc-python" ++ ": " ++ ea;
         Json.py_encode_basestring_ascii "edge-tts" ++ ": " ++ eb;
         Json.py_encode_basestring_ascii "torch" ++ ": " ++ ec;
         Json.py_encode_basestring_ascii "torchaudio" ++ ": " ++ ed]
   ++ Json.newline_indent 2 0 ++ "}") ++ String PyStr.LF EmptyString
  = output_text ea eb ec ed.
Proof.
  unfold output_text, Json.py_encode_basestring_ascii, quoted, LFs,
    Json.newline_indent.
  cbn [String.concat Json.escape Json.spaces Nat.mul Nat.add].
  string_eq.
Qed.

(** A successful run of the script, taken apart. *)
Lemma script_returned (w : world) (tr : list event) :
  script w = (tr, Return tt) ->
  exists a b c d ta tb tc td ea eb ec ed,
    v "rvc-python" "rvc" w = (ta, Return a) /\
    v "edge-tts" "edge_tts" w = (tb, Return b) /\
    v "torch" "torch" w = (tc, Return c) /\
    v "torchaudio" "torchaudio" w = (td, Return d) /\
    Json.iterencode (sys_limits w) 2 1 a = Return ea /\
    Json.iterencode (sys_limits w) 2 1 b = Return eb /\
    Json.iterencode (sys_limits w) 2 1 c = Return ec /\
    Json.iterencode (sys_limits w) 2 1 d = Return ed /\
    tr = (ta ++ tb ++ tc ++ td ++ [EvPrint (output_text ea eb ec ed)])%list.
Proof.
  rewrite script_steps.
  destruct (v "rvc-python" "rvc" w) as [ta [a|e]]; [|discriminate].
  destruct (v "edge-tts" "edge_tts" w) as [tb [b|e]]; [|discriminate].
  destruct (v "torch" "torch" w) as [tc [c|e]]; [|discriminate].
  destruct (v "torchaudio" "torchaudio" w) as [td [d|e]]; [|discriminate].
  destruct (Json.encode_items _ 2 1 _) as [ts|e] eqn:Hts; [|discriminate].
  destruct (encode_items_four _ _ _ _ _ _ _ _ _ _ _ _ Hts)
    as (ea & eb & ec & ed & Ha & Hb & Hc & Hd & ->).
  cbv zeta. rewrite dumps_layout.
  destruct (stdout_write w _); [discriminate|]. intros [= <-].
  exists a, b, c, d, ta, tb, tc, td, ea, eb, ec, ed. repeat split; auto.
Qed.

(** The printed layout is a JSON text for the object of the four entries. *)
Lemma output_text_json (ja jb jc jd : json) (ea eb ec ed : string) :
  value ja ea -> value jb eb -> value jc ec -> value jd ed ->
  json_text
    (JObject [("rvc-python", ja); ("edge-tts", jb);
              ("torch", jc); ("torchaudio", jd)])
    (output_text ea eb ec ed).
Proof.
  intros Ha Hb Hc Hd. rewrite <- dumps_layout.
  change (String PyStr.LF EmptyString) with LFs.
  match goal with
  | |- json_text ?j (("{" ++ ?sp ++ ?body ++ ?sp' ++ "}") ++ LFs) =>
      replace (("{" ++ sp ++ body ++ sp' ++ "}") ++ LFs)
        with ("" ++ ("{" ++ (sp ++ body ++ sp') ++ "}") ++ LFs) by string_eq
  end.
  apply element_intro; [reflexivity| |reflexivity].
  apply value_object, members_lines; try reflexivity; [|discriminate].
  repeat constructor; eexists; (split; [eassumption | reflexivity]).
Qed.

End Output.

(** One step of a walk through the four lookups of the script: the lookup
    of [p] either raised what [subprocess.run] raised or returned. *)
Ltac lookup_step w p i a t Hrun Hv Hnp :=
  let e := fresh "e" in
  let rc := fresh "rc" in
  let out := fresh "out" in
  pose proof (v_no_print w p i) as Hnp;
  destruct (v_cases w p i)
    as [(e & Hrun & Hv) | (rc & out & a & t & Hrun & Hv & _)];
  rewrite Hv in *; cbn [trace fst] in Hnp; cbv beta iota.

(** The script stopped at the query of [q], which raised [e]. *)
Ltac run_failed q e :=
  split;
  [ reflexivity
  | split;
    [ cbn [fst]; auto using no_print_app
    | exists q, e; cbn [outcome snd map fst lookups In]; auto 7 ] ].

(** The bare [except] makes no difference between exception classes: an
    interrupt during the import is absorbed like a missing module. *)
Example keyboard_interrupt_is_absorbed :
  let w := {| sys_executable := "python";
              os_exec := fun _ => Exited 1 EmptyString;
              py_import := fun _ => Raise KeyboardInterrupt;
              sys_limits := default_limits;
              stdout_write := fun _ => None;
              stdout_flush_ok := true |} in
  v "torch" "torch" w
  = ([EvRun ["python"; "-m"; "pip"; "show"; "torch"]; EvImport "torch"],
     Return (PStr "not installed")).
Proof. reflexivity. Qed.

(** C5.  When [subprocess.run] raises, nothing catches the exception: the
    lookup raises it without reaching the fallback, and the script ends in
    failure without having printed anything. *)
Theorem C5_run_failure_propagates (w : world) (p i : string) (e : exn) :
  os_exec w (pip_show_argv w p) = RunRaises e ->
  v p i w = ([EvRun (pip_show_argv w p)], Raise e) /\
  (In (p, i) lookups ->
   snd (run_script w) = ExitFailure /\
   no_print (fst (run_script w)) /\
   exists q e',
     In q (map fst lookups) /\
     os_exec w (pip_show_argv w q) = RunRaises e' /\
     outcome (script w) = Raise e').
Proof.
  intro Hrun. split; [now apply v_run_raises|]. intro Hin.
  unfold run_script. rewrite script_steps.
  lookup_step w "rvc-python" "rvc" a ta R1 V1 N1.
  { run_failed "rvc-python" e0. }
  lookup_step w "edge-tts" "edge_tts" b tb R2 V2 N2.
  { run_failed "edge-tts" e0. }
  lookup_step w "torch" "torch" c tc R3 V3 N3.
  { run_failed "torch" e0. }
  lookup_step w "torchaudio" "torchaudio" d td R4 V4 N4.
  { run_failed "torchaudio" e0. }
  exfalso.
  destruct Hin as [Hin|[Hin|[Hin|[Hin|[]]]]]; injection Hin as <- <-;
    congruence.
Qed.

Lemma C5_run_failure_witness :
  v "rvc-python" "rvc" world_no_interpreter
  = ([EvRun (pip_show_argv world_no_interpreter "rvc-python")],
     Raise (FileNotFoundError "/opt/app/python")) /\
  (In ("rvc-python", "rvc") lookups ->
   snd (run_script world_no_interpreter) = ExitFailure /\
   no_print (fst (run_script world_no_interpreter)) /\
   exists q e',
     In q (map fst lookups) /\
     os_exec world_no_interpreter (pip_show_argv world_no_interpreter q)
     = RunRaises e' /\
     outcome (script world_no_interpreter) = Raise e').
Proof.
  apply (C5_run_failure_propagates world_no_interpreter "rvc-python" "rvc"
           (FileNotFoundError "/opt/app/python")).
  reflexivity.
Defined.

(** C4 (as amended).  When each of the four queries runs to its exit, the
    four resolved objects are ones [json.dumps] can write (no part of them is
    of a class without a rule or a dict key the encoder does not take, no
    integer has more digits than the limit on integer conversion allows, and
    the nesting stays within the recursion limit), and standard output takes
    the text (the write does not raise and the flush at exit succeeds), the
    script prints its output and ends successfully; the failures of the
    fallback never stand in the way, being absorbed by the lookup. *)
Theorem C4_success_when_queries_run (w : world) :
  (forall p i, In (p, i) lookups ->
     exists rc out, os_exec w (pip_show_argv w p) = Exited rc out) ->
  (forall pi a, In pi lookups -> resolved w pi a ->
     serializable (sys_limits w) a = true) ->
  (forall text, stdout_write w text = None) ->
  stdout_flush_ok w = true ->
  exists t out,
    run_script w = ((t ++ [EvPrint out])%list, ExitSuccess) /\ no_print t.
Proof.
  intros Hruns Hser Hwrite Hflush.
  assert (Hno : forall p i e, In (p, i) lookups ->
                  os_exec w (pip_show_argv w p) <> RunRaises e).
  { intros p i e Hin He. destruct (Hruns p i Hin) as (rc & out & H).
    congruence. }
  assert (Hok : forall p i t a, In (p, i) lookups ->
                  v p i w = (t, Return a) ->
                  serializable (sys_limits w) a = true).
  { intros p i t a Hin Hv. apply (Hser (p, i) a Hin).
    unfold resolved. cbn [fst snd]. now rewrite Hv. }
  unfold run_script. rewrite script_steps.
  lookup_step w "rvc-python" "rvc" a ta R1 V1 N1.
  { exfalso. apply (Hno "rvc-python" "rvc" _ ltac:(cbn; auto) R1). }
  lookup_step w "edge-tts" "edge_tts" b tb R2 V2 N2.
  { exfalso. apply (Hno "edge-tts" "edge_tts" _ ltac:(cbn; auto) R2). }
  lookup_step w "torch" "torch" c tc R3 V3 N3.
  { exfalso. apply (Hno "torch" "torch" _ ltac:(cbn; auto) R3). }
  lookup_step w "torchaudio" "torchaudio" d td R4 V4 N4.
  { exfalso. apply (Hno "torchaudio" "torchaudio" _ ltac:(cbn; auto 6) R4). }
  assert (Ha : serializable (sys_limits w) a = true)
    by apply (Hok "rvc-python" "rvc" _ _ ltac:(cbn; auto) V1).
  assert (Hb : serializable (sys_limits w) b = true)
    by apply (Hok "edge-tts" "edge_tts" _ _ ltac:(cbn; auto) V2).
  assert (Hc : serializable (sys_limits w) c = true)
    by apply (Hok "torch" "torch" _ _ ltac:(cbn; auto) V3).
  assert (Hd : serializable (sys_limits w) d = true)
    by apply (Hok "torchaudio" "torchaudio" _ _ ltac:(cbn; auto 6) V4).
  destruct (encode_items_four_returns (sys_limits w) 2
              "rvc-python" "edge-tts" "torch" "torchaudio" a b c d Ha Hb Hc Hd)
    as [ts ->].
  cbv zeta. rewrite Hwrite, Hflush.
  exists ((EvRun (pip_show_argv w "rvc-python") :: ta)
          ++ (EvRun (pip_show_argv w "edge-tts") :: tb)
          ++ (EvRun (pip_show_argv w "torch") :: tc)
          ++ (EvRun (pip_show_argv w "torchaudio") :: td))%list.
  eexists. split.
  - rewrite <- !List.app_assoc. reflexivity.
  - auto using no_print_app.
Qed.

Lemma C4_success_witness :
  exists t out,
    run_script world_sample = ((t ++ [EvPrint out])%list, ExitSuccess) /\
    no_print t.
Proof.
  apply (C4_success_when_queries_run world_sample).
  - intros p i [H|[H|[H|[H|[]]]]]; injection H as <- <-;
      eexists; eexists; reflexivity.
  - intros pi a [<-|[<-|[<-|[<-|[]]]]] H; vm_compute in H;
      injection H as <-; reflexivity.
  - reflexivity.
  - reflexivity.
Defined.

(** C4 as stated fails: when the interpreter cannot be started the first
    query raises, and the script ends in failure. *)
Lemma C4_exit_status_counterexample :
  run_script world_no_interpreter
  = ([EvRun ["/opt/app/python"; "-m"; "pip"; "show"; "rvc-python"]],
     ExitFailure) /\
  ~ (forall w, snd (run_script w) = ExitSuccess).
Proof.
  split; [reflexivity|].
  intro H. specialize (H world_no_interpreter). discriminate H.
Qed.

(** Another way to fail: a [__version__] the encoder has no rule for makes
    [json.dumps] raise after the four lookups, and nothing is printed. *)
Example unserializable_version_fails :
  let w := world_version_object (PObject "Version") in
  outcome (script w)
  = Raise (TypeError "Object of type Version is not JSON serializable") /\
  snd (run_script w) = ExitFailure /\
  filter (fun ev => match ev with EvPrint _ => true | _ => false end)
    (fst (run_script w)) = [].
Proof. cbv zeta. repeat split. Qed.

(** Floats are written as [float.__repr__] writes them, and a dict as an
    object whose keys are the texts of its keys; a list nested deeper than
    the limit allows is not written. *)
Example float_and_dict_versions :
  Json.floatstr (FFinite false 1 None (Some 16%Z)) = "1e+16"%string /\
  Json.floatstr (FFinite false 1 (Some (0%nat, 5%N)) (Some (-7)%Z))
  = "1.5e-07"%string /\
  Json.floatstr (FFinite true 0 (Some (0%nat, 0%N)) None) = "-0.0"%string /\
  Json.floatstr (FFinite false 0 (Some (2%nat, 1%N)) None) = "0.001"%string /\
  Json.iterencode default_limits 2 1
    (PDict [(KInt 1, PInt 5); (KStr "1", PInt 3); (KNone, PInt 4);
            (KFloat (FFinite false 1 (Some (0%nat, 5%N)) None), PInt 6);
            (KFloat FNaN, PInt 7);
            (KInt (10 ^ 20), PList [PDict []; PDict [(KStr "x", PList [])]])])
  = Return
      ("{" ++ LFs
       ++ "    " ++ JsonText.quoted "1" ++ ": 5," ++ LFs
       ++ "    " ++ JsonText.quoted "1" ++ ": 3," ++ LFs
       ++ "    " ++ JsonText.quoted "null" ++ ": 4," ++ LFs
       ++ "    " ++ JsonText.quoted "1.5" ++ ": 6," ++ LFs
       ++ "    " ++ JsonText.quoted "NaN" ++ ": 7," ++ LFs
       ++ "    " ++ JsonText.quoted "100000000000000000000" ++ ": [" ++ LFs
       ++ "      {}," ++ LFs
       ++ "      {" ++ LFs
       ++ "        " ++ JsonText.quoted "x" ++ ": []" ++ LFs
       ++ "      }" ++ LFs
       ++ "    ]" ++ LFs
       ++ "  }")%string /\
  Json.iterencode default_limits 2 1 (PDict [(KOther "tuple", PInt 3)])
  = Raise (TypeError "keys must be str, int, float, bool or None, not tuple") /\
  (let shallow := {| int_max_str_digits := 4300; max_nesting := 1 |} in
   Json.iterencode shallow 2 1 (PList [PList []]) = Raise RecursionError /\
   encodable 4300 (PList [PList []]) = true /\
   serializable shallow (PList [PList []]) = false /\
   serializable shallow (PList [PInt 1]) = true).
Proof. cbv zeta. vm_compute. repeat split. Qed.

(** A write that raises ends the script in failure after the call of
    [print]; a flush that fails at exit does so after the script has run to
    its end. *)
Example unwritable_output_fails :
  let closed := {| sys_executable := sys_executable world_sample;
                   os_exec := os_exec world_sample;
                   py_import := py_import world_sample;
                   sys_limits := default_limits;
                   stdout_write := fun _ => Some (OtherException "BrokenPipeError");
                   stdout_flush_ok := true |} in
  (outcome (script closed) = Raise (OtherException "BrokenPipeError") /\
   snd (run_script closed) = ExitFailure /\
   trace (script closed) = trace (script world_sample)) /\
  (outcome (script world_full_device) = Return tt /\
   snd (run_script world_full_device) = ExitFailure /\
   trace (script world_full_device) = trace (script world_sample)).
Proof. cbv zeta. vm_compute. repeat split. Qed.

(** A JSON value written for an object is a string exactly when the object
    is a text. *)
Lemma to_json_string (a : pyval) (j : JsonText.json) :
  to_json a = Some j ->
  (is_str a = true <-> exists s, j = JsonText.JString s).
Proof.
  destruct a as [s| |b|n|f|xs|items|cls]; cbn [to_json is_str].
  - intros [= <-]. split; eauto.
  - intros [= <-]. split; [discriminate | intros [s H]; discriminate H].
  - intros [= <-]. split; [discriminate | intros [s H]; discriminate H].
  - intros [= <-]. split; [discriminate | intros [s H]; discriminate H].
  - destruct f; intros [= <-].
    split; [discriminate | intros [s H]; discriminate H].
  - destruct (map_option to_json xs); intros [= <-].
    split; [discriminate | intros [s H]; discriminate H].
  - destruct (map_option _ items); intros [= <-].
    split; [discriminate | intros [s H]; discriminate H].
  - discriminate.
Qed.

(** A text that denotes a JSON string opens with a double quote; [null] is
    not one. *)
Lemma string_value_quoted (s t : string) :
  JsonText.value (JsonText.JString s) t -> first_char t = Some Json.DQUOTE.
Proof. intro H. inversion H; subst. reflexivity. Qed.

(** The calls of a lookup that returned. *)
Lemma returned_lookup_trace (w : world) (p i : string) (t : list event)
    (a : pyval) :
  v p i w = (t, Return a) -> lookup_trace w p i t.
Proof.
  intros Hv.
  destruct (v_cases w p i) as [(e & _ & Hv') | (rc & out & a' & t' & Hrun & _)];
    [rewrite Hv' in Hv; discriminate Hv|].
  destruct (v_exited_returns w p i rc out Hrun) as [a0 [[Hv0 Hs]|[Hv0 Hs]]];
    rewrite Hv0 in Hv; injection Hv as <- <-; [now left | now right].
Qed.

(** A lookup that returned, as an entry of the output. *)
Lemma returned_entry (w : world) (p i : string) (t : list event)
    (a : pyval) (ea : string) :
  v p i w = (t, Return a) ->
  Json.iterencode (sys_limits w) 2 1 a = Return ea ->
  finite_floats a = true ->
  exists j, entry w p i a j /\ JsonText.value j ea.
Proof.
  intros Hv Henc Hfin.
  destruct (v_cases w p i) as [(e & _ & Hv') | (rc & out & a' & t' & Hrun & _)];
    [rewrite Hv' in Hv; discriminate Hv|].
  destruct (iterencode_value _ 2 a 1 ea Henc Hfin) as [j [Hj Hval]].
  pose proof (to_json_string a j Hj) as Hstr.
  assert (Hres : resolved w (p, i) a)
    by (unfold resolved; cbn [fst snd]; now rewrite Hv).
  destruct (v_exited_returns w p i rc out Hrun) as [a0 [[Hv0 Hs]|[Hv0 Hs]]];
    rewrite Hv0 in Hv; injection Hv as <- <-.
  - exists j. unfold entry. tauto.
  - exists j. unfold entry.
    destruct Hs as [-> | Hs]; [cbn [is_str not_installed]|]; tauto.
Qed.

(** A JSON value opens with a character of its own kind: a letter of
    [null], [true] or [false], a minus sign or a digit, a double quote or a
    bracket. *)
Lemma digits_first_char (d : Decimal.uint) (rest : string) :
  d <> Decimal.Nil ->
  exists c, first_char (NilEmpty.string_of_uint d ++ rest) = Some c /\
            PyStr.between 48 57 c = true.
Proof.
  destruct d; intro Hd; [contradiction|..];
    cbn [NilEmpty.string_of_uint String.append first_char];
    eexists; (split; [reflexivity | reflexivity]).
Qed.

Lemma value_first_char (j : JsonText.json) (t : string) :
  JsonText.value j t ->
  exists c, first_char t = Some c /\
            (PyStr.between 48 57 c = true \/
             In c ["n"; "t"; "f"; "-"; Json.DQUOTE; "["; "{"]%char).
Proof.
  intros H. destruct H as [ | | |n t Hn|t Hr|s t _|sp _|xs t _|sp _|ms t _];
    try (eexists; split; [reflexivity | right; cbn; tauto]).
  - destruct Hn as [d Hd|d Hd].
    + destruct (digits_first_char d "" (digits_ok_nonnil d Hd)) as (c & Hc & Hb).
      rewrite append_nil_r in Hc. eauto.
    + eexists; split; [reflexivity | right; cbn; tauto].
  - destruct Hr as [sign d f x [->| ->] Hd _ _].
    + destruct (digits_first_char d (f ++ x) (digits_ok_nonnil d Hd))
        as (c & Hc & Hb).
      eauto.
    + eexists; split; [reflexivity | right; cbn; tauto].
Qed.




(** A [__version__] that is not a number is printed as [NaN], which is no
    JSON value: no document has it as its text. *)
Example nan_version_is_written :
  let w := world_version_object (PFloat FNaN) in
  outcome (script w) = Return tt /\
  In (EvPrint (output_text "NaN" "NaN" "NaN" "NaN")) (trace (script w)) /\
  resolved w ("torch", "torch") (PFloat FNaN) /\
  finite_floats (PFloat FNaN) = false /\
  to_json (PFloat FNaN) = None /\
  (forall j, ~ JsonText.value j "NaN").
Proof.
  cbv zeta. repeat split.
  - vm_compute. tauto.
  - intros j H. apply value_first_char in H as (c & [= <-] & [H|H]).
    + discriminate H.
    + cbn in H. repeat (destruct H as [H|H]; [discriminate H|]). exact H.
Qed.



(** The output of the sample world, as printed. *)
Example sample_output :
  trace (script world_sample)
  = [EvRun ["/usr/bin/python3"; "-m"; "pip"; "show"; "rvc-python"];
     EvImport "rvc";
     EvRun ["/usr/bin/python3"; "-m"; "pip"; "show"; "edge-tts"];
     EvImport "edge_tts";
     EvRun ["/usr/bin/python3"; "-m"; "pip"; "show"; "torch"];
     EvRun ["/usr/bin/python3"; "-m"; "pip"; "show"; "torchaudio"];
     EvImport "torchaudio";
     EvPrint (output_text (JsonText.quoted "not installed")
                (JsonText.quoted "6.1.9") (JsonText.quoted "2.1.0")
                (JsonText.quoted "not installed"))].
Proof. reflexivity. Qed.

(** ** The script as a loop over its lookups *)

Section Loop.

Variable w : world.

Lemma script_loop :
  script w =
  match lookup_all lookups w with
  | (t, Raise e) => (t, Raise e)
  | (t, Return d) =>
      match Json.encode_items (sys_limits w) 2 1 d with
      | Raise e => (t, Raise e)
      | Return ts =>
          (t ++ [EvPrint (printed ts)],
           match stdout_write w (printed ts) with
           | Some e => Raise e
           | None => Return tt
           end)
      end
  end.
Proof.
  rewrite script_steps. unfold lookups, lookup_all, bind, ret.
  destruct (v "rvc-python" "rvc" w) as [t1 [a|e]]; [|reflexivity].
  destruct (v "edge-tts" "edge_tts" w) as [t2 [b|e]]; [|reflexivity].
  destruct (v "torch" "torch" w) as [t3 [c|e]]; [|reflexivity].
  destruct (v "torchaudio" "torchaudio" w) as [t4 [d|e]]; [|reflexivity].
  rewrite !List.app_nil_r.
  destruct (Json.encode_items _ 2 1 _); cbv zeta; rewrite <- ?List.app_assoc;
    reflexivity.
Qed.

(** A lookup that returned did so after its query exited. *)
Lemma returned_after_exit (p i : string) (t : list event) (a : pyval) :
  v p i w = (t, Return a) ->
  lookup_trace w p i t /\
  exists rc out, os_exec w (pip_show_argv w p) = Exited rc out.
Proof.
  intro Hv.
  destruct (v_cases w p i) as [(e & _ & Hv') | (rc & out & a' & t' & Hrun & Hv' & Ht)];
    rewrite Hv' in Hv; [discriminate Hv|].
  injection Hv as <- <-. split; [|eauto].
  destruct Ht as [-> | ->]; [now left | now right].
Qed.

Lemma lookup_all_cons (p i : string) (ls : list (string * string)) :
  lookup_all ((p, i) :: ls) w =
  match v p i w with
  | (t, Raise e) => (t, Raise e)
  | (t, Return a) =>
      match lookup_all ls w with
      | (t', Raise e) => (t ++ t', Raise e)
      | (t', Return d) => (t ++ t', Return ((p, a) :: d))
      end
  end.
Proof.
  cbn [lookup_all]. unfold bind, ret.
  destruct (v p i w) as [t [a|e]]; [|reflexivity].
  destruct (lookup_all ls w) as [t' [d|e]]; [|reflexivity].
  now rewrite List.app_nil_r.
Qed.

(** The lookups before the first query that raises all return; that query
    ends the display with its exception. *)
Lemma lookup_all_stops (before after : list (string * string))
    (p i : string) (e : exn) :
  (forall q j, In (q, j) before ->
     exists rc out, os_exec w (pip_show_argv w q) = Exited rc out) ->
  os_exec w (pip_show_argv w p) = RunRaises e ->
  exists tr d,
    ran w before tr d /\
    lookup_all (before ++ (p, i) :: after) w
    = (tr ++ [EvRun (pip_show_argv w p)], Raise e).
Proof.
  intros Hbefore Hrun.
  induction before as [|[q j] before IH]; cbn [app]; rewrite lookup_all_cons.
  - exists [], []. split; [constructor|].
    now rewrite (v_run_raises w p i e Hrun).
  - destruct IH as (tr & d & Hran & Hall).
    { intros q' j' Hin. apply (Hbefore q' j'). now right. }
    destruct (Hbefore q j (or_introl eq_refl)) as (rc & out & Hq).
    rewrite Hall.
    destruct (v_exited_returns w q j rc out Hq) as [a [[Hv _]|[Hv _]]];
      rewrite Hv; eexists (_ ++ tr), ((q, a) :: d);
      (split;
       [ apply ran_cons; [exact Hv | | exact Hran]
       | now rewrite <- List.app_assoc ]).
    + now left.
    + now right.
Qed.

(** Either some query raises, and the display stops there, or all the
    lookups return. *)
Lemma lookup_all_cases (ls : list (string * string)) :
  (exists before p i after e tr d,
      ls = before ++ (p, i) :: after /\
      ran w before tr d /\
      os_exec w (pip_show_argv w p) = RunRaises e /\
      lookup_all ls w = (tr ++ [EvRun (pip_show_argv w p)], Raise e)) \/
  (exists tr d, ran w ls tr d /\ lookup_all ls w = (tr, Return d)).
Proof.
  induction ls as [|[p i] ls IH].
  - right. exists [], []. split; [constructor | reflexivity].
  - rewrite lookup_all_cons.
    destruct (v_cases w p i)
      as [(e & Hrun & Hv) | (rc & out & a & t & Hrun & Hv & Ht)]; rewrite Hv.
    + left. exists [], p, i, ls, e, [], []. repeat split; auto. constructor.
    + assert (Ht' : lookup_trace w p i (EvRun (pip_show_argv w p) :: t))
        by (destruct Ht as [-> | ->]; [now left | now right]).
      destruct IH as [(before & q & j & after & e & tr & d & -> & Hran & Hq & Hall)
                     | (tr & d & Hran & Hall)]; rewrite Hall.
      * left. exists ((p, i) :: before), q, j, after, e,
          ((EvRun (pip_show_argv w p) :: t) ++ tr), ((p, a) :: d).
        repeat split; auto.
        -- now apply ran_cons.
        -- now rewrite <- List.app_assoc.
      * right. exists ((EvRun (pip_show_argv w p) :: t) ++ tr), ((p, a) :: d).
        split; [now apply ran_cons | reflexivity].
Qed.

(** What a run of lookups leaves behind. *)
Lemma ran_events (ls : list (string * string)) (tr : list event)
    (d : list (string * pyval)) :
  ran w ls tr d ->
  no_print tr /\
  (forall argv, In (EvRun argv) tr ->
     exists q, In q (map fst ls) /\ argv = pip_show_argv w q) /\
  (forall name, In (EvImport name) tr -> In name (map snd ls)).
Proof.
  induction 1 as [|p i t a ls tr d Hv Ht _ (IHp & IHr & IHi)].
  - repeat split; intros ? [].
  - assert (Hnp : no_print t).
    { pose proof (v_no_print w p i) as N. now rewrite Hv in N. }
    split; [now apply no_print_app|]. split.
    + intros argv Hin. apply in_app_or in Hin as [Hin|Hin].
      * exists p. split; [now left|].
        destruct Ht as [-> | ->]; cbn [In] in Hin.
        -- destruct Hin as [[= <-]|[]]. reflexivity.
        -- destruct Hin as [[= <-]|[Hin|[]]]; [reflexivity | discriminate Hin].
      * destruct (IHr argv Hin) as (q & Hq & ->). exists q.
        split; [now right | reflexivity].
    + intros name Hin. apply in_app_or in Hin as [Hin|Hin].
      * left. destruct Ht as [-> | ->]; cbn [In] in Hin.
        -- destruct Hin as [Hin|[]]. discriminate Hin.
        -- destruct Hin as [Hin|[[= <-]|[]]]; [discriminate Hin | reflexivity].
      * right. now apply IHi.
Qed.

Lemma ran_items (ls : list (string * string)) (tr : list event)
    (d : list (string * pyval)) :
  ran w ls tr d ->
  map fst d = map fst ls /\
  (forall p i, In (p, i) ls ->
     exists rc out, os_exec w (pip_show_argv w p) = Exited rc out) /\
  (forall p i, In (p, i) ls -> exists a, resolved w (p, i) a /\ In (p, a) d).
Proof.
  induction 1 as [|p i t a ls tr d Hv Ht _ (IHk & IHx & IHr)].
  - repeat split; intros ? ? [].
  - split; [cbn; now rewrite IHk|]. split.
    + intros q j [[= <- <-]|Hin]; [|now apply (IHx q j)].
      apply (returned_after_exit p i t a Hv).
    + intros q j [[= <- <-]|Hin].
      * exists a. split; [|now left].
        unfold resolved. cbn [fst snd]. now rewrite Hv.
      * destruct (IHr q j Hin) as (b & Hb & Hd). exists b.
        split; [exact Hb | now right].
Qed.

End Loop.

Section LoopFacts.

Variable w : world.

(** The trace of the display for any list of lookups. *)
Lemma lookup_all_events (ls : list (string * string)) :
  no_print (trace (lookup_all ls w)) /\
  (forall argv, In (EvRun argv) (trace (lookup_all ls w)) ->
     exists q, In q (map fst ls) /\ argv = pip_show_argv w q) /\
  (forall name, In (EvImport name) (trace (lookup_all ls w)) ->
     In name (map snd ls)).
Proof.
  destruct (lookup_all_cases w ls)
    as [(before & p & i & after & e & tr & d & -> & Hran & _ & ->)
       | (tr & d & Hran & ->)];
    destruct (ran_events w _ _ _ Hran) as (Hp & Hr & Hi); cbn [trace fst];
    [|now repeat split].
  rewrite !map_app. cbn [map fst snd]. repeat split.
  - apply no_print_app; [exact Hp|].
    intros text [Hin|[]]. discriminate Hin.
  - intros argv Hin. apply in_app_or in Hin as [Hin|[[= <-]|[]]].
    + destruct (Hr argv Hin) as (q & Hq & ->). exists q.
      split; [apply in_or_app; now left | reflexivity].
    + exists p. split; [apply in_or_app; right; now left | reflexivity].
  - intros name Hin. apply in_app_or in Hin as [Hin|[Hin|[]]];
      [|discriminate Hin].
    apply in_or_app. left. now apply Hi.
Qed.

(** The script adds to the trace of its lookups the call of [print], and
    only when the lookups and the serialisation have returned. *)
Lemma script_trace :
  (trace (script w) = trace (lookup_all lookups w) /\
   exists e, outcome (script w) = Raise e) \/
  (exists out,
      trace (script w) = trace (lookup_all lookups w) ++ [EvPrint out] /\
      outcome (script w)
      = match stdout_write w out with
        | Some e => Raise e
        | None => Return tt
        end).
Proof.
  rewrite script_loop.
  destruct (lookup_all lookups w) as [t [d|e]]; cbn [trace outcome fst snd].
  - destruct (Json.encode_items (sys_limits w) 2 1 d) as [ts|e]; cbn [fst snd].
    + right. now exists (printed ts).
    + left. split; [reflexivity | now exists e].
  - left. split; [reflexivity | now exists e].
Qed.

End LoopFacts.

(** An item that comes after in a list without repetition is none of the
    items before it. *)
Lemma after_is_new {A : Type} (before after : list A) (x y : A) :
  NoDup (before ++ x :: after) -> In y after -> y <> x /\ ~ In y before.
Proof.
  intros Hnd Hy.
  apply NoDup_remove in Hnd as [Hnd Hx]. split.
  - intros ->. apply Hx, in_or_app. now right.
  - intro Hb. induction before as [|z before IH]; [contradiction|].
    cbn [app] in Hnd. apply NoDup_cons_iff in Hnd as [Hz Hnd].
    destruct Hb as [->|Hb].
    + apply Hz, in_or_app. now right.
    + apply IH; auto.
      intro Hin. apply Hx. cbn [app]. right. exact Hin.
Qed.

(** ** Further properties of the script *)

(** X5.  Whatever the world, the only calls of [subprocess.run] the script
    makes are for [sys.executable -m pip show p] with [p] one of its four
    package names, and the only calls of [__import__] it makes are for its
    four module names. *)
Theorem X5_only_fixed_calls (w : world) :
  (forall argv, In (EvRun argv) (trace (script w)) ->
     exists p, In p ["rvc-python"; "edge-tts"; "torch"; "torchaudio"] /\
               argv = [sys_executable w; "-m"; "pip"; "show"; p]) /\
  (forall name, In (EvImport name) (trace (script w)) ->
     In name ["rvc"; "edge_tts"; "torch"; "torchaudio"]).
Proof.
  destruct (lookup_all_events w lookups) as (_ & Hr & Hi).
  destruct (script_trace w) as [[-> _] | (out & -> & _)]; split.
  - exact Hr.
  - exact Hi.
  - intros argv Hin. apply in_app_or in Hin as [Hin|[Hin|[]]];
      [now apply Hr | discriminate Hin].
  - intros name Hin. apply in_app_or in Hin as [Hin|[Hin|[]]];
      [now apply Hi | discriminate Hin].
Qed.

(** X6.  The first query that raises ends the script with its own
    exception, right after that query: the lookups that come after it in the
    dict display are never made (no query, no import). *)
Theorem X6_first_failing_query_ends_script
    (w : world) (before after : list (string * string))
    (p i : string) (e : exn) :
  lookups = before ++ (p, i) :: after ->
  (forall q j, In (q, j) before ->
     exists rc out, os_exec w (pip_show_argv w q) = Exited rc out) ->
  os_exec w (pip_show_argv w p) = RunRaises e ->
  outcome (script w) = Raise e /\
  (exists tr, trace (script w) = tr ++ [EvRun (pip_show_argv w p)]) /\
  (forall q j, In (q, j) after ->
     ~ In (EvRun (pip_show_argv w q)) (trace (script w)) /\
     ~ In (EvImport j) (trace (script w))).
Proof.
  intros Hsplit Hbefore Hrun.
  destruct (lookup_all_stops w before after p i e Hbefore Hrun)
    as (tr & d & Hran & Hall).
  assert (Hscript : script w = (tr ++ [EvRun (pip_show_argv w p)], Raise e))
    by (rewrite script_loop, Hsplit, Hall; reflexivity).
  rewrite Hscript. cbn [trace outcome fst snd].
  split; [reflexivity|]. split; [now exists tr|].
  intros q j Hin.
  destruct (ran_events w _ _ _ Hran) as (_ & Hr & Hi).
  assert (Hnames : NoDup (map fst before ++ p :: map fst after)).
  { change (p :: map fst after) with (map fst ((p, i) :: after)).
    rewrite <- map_app, <- Hsplit. cbn.
    repeat (constructor; [cbn; intuition discriminate|]). constructor. }
  assert (Hmods : NoDup (map snd before ++ i :: map snd after)).
  { change (i :: map snd after) with (map snd ((p, i) :: after)).
    rewrite <- map_app, <- Hsplit. cbn.
    repeat (constructor; [cbn; intuition discriminate|]). constructor. }
  destruct (after_is_new _ _ _ q Hnames (in_map fst _ (q, j) Hin))
    as [Hqp Hqb].
  destruct (after_is_new _ _ _ j Hmods (in_map snd _ (q, j) Hin))
    as [_ Hjb].
  split; intro Hev; apply in_app_or in Hev as [Hev|[Hev|[]]].
  - destruct (Hr _ Hev) as (q' & Hq' & Heq).
    unfold pip_show_argv in Heq. injection Heq as <-. now apply Hqb.
  - unfold pip_show_argv in Hev. injection Hev as ->. now apply Hqp.
  - apply Hjb. now apply Hi.
  - discriminate Hev.
Qed.

Lemma X6_first_failing_query_witness :
  let w := {| sys_executable := "python";
              os_exec := fun argv =>
                match argv with
                | [_; _; _; _; "edge-tts"] => RunRaises UnicodeDecodeError
                | _ => Exited 1 EmptyString
                end;
              py_import := fun name => Raise (ModuleNotFoundError name);
              sys_limits := default_limits;
              stdout_write := fun _ => None;
              stdout_flush_ok := true |} in
  outcome (script w) = Raise UnicodeDecodeError /\
  (exists tr, trace (script w) = tr ++ [EvRun (pip_show_argv w "edge-tts")]) /\
  (forall q j, In (q, j) [("torch", "torch"); ("torchaudio", "torchaudio")] ->
     ~ In (EvRun (pip_show_argv w q)) (trace (script w)) /\
     ~ In (EvImport j) (trace (script w))).
Proof.
  cbv zeta.
  apply (X6_first_failing_query_ends_script _ [("rvc-python", "rvc")]
           [("torch", "torch"); ("torchaudio", "torchaudio")]
           "edge-tts" "edge_tts" UnicodeDecodeError).
  - reflexivity.
  - intros q j [[= <- <-]|[]]. eexists. eexists. reflexivity.
  - reflexivity.
Defined.

Section Serialisable.

(** The encoder writes an object only if it has a rule for every part of
    it. *)
Lemma iterencode_returns_encodable (lim : limits) (indent : nat) (a : pyval) :
  forall level t,
    Json.iterencode lim indent level a = Return t ->
    encodable (int_max_str_digits lim) a = true.
Proof.
  induction a as [s| |b|n|f|xs IHxs|items IHitems|cls] using pyval_nested_ind;
    intros level t H; try reflexivity; [| | |discriminate H].
  - cbn [encodable]. apply negb_true_iff, int_repr_returns. now exists t.
  - destruct xs as [|x xs]; [reflexivity|].
    rewrite iterencode_list in H.
    destruct (max_nesting lim <? level)%nat; [discriminate H|].
    destruct (map_result (Json.iterencode lim indent (S level)) (x :: xs))
      as [ts|e] eqn:Hts; [|discriminate H].
    clear H. cbn [encodable]. revert ts Hts.
    induction IHxs as [|y ys Hy _ IH]; intros ts Hts; [reflexivity|].
    cbn [map_result] in Hts.
    destruct (Json.iterencode lim indent (S level) y) as [t'|] eqn:Ht';
      [|discriminate].
    destruct (map_result _ ys) as [ts'|]; [|discriminate].
    cbn [forallb]. rewrite (Hy _ _ Ht'), (IH _ eq_refl). reflexivity.
  - destruct items as [|kv items]; [reflexivity|].
    rewrite iterencode_dict in H.
    destruct (max_nesting lim <? level)%nat; [discriminate H|].
    destruct (map_result (Json.encode_member lim indent (S level)) (kv :: items))
      as [ts|e] eqn:Hts; [|discriminate H].
    clear H. cbn [encodable]. revert ts Hts.
    induction IHitems as [|[k y] ys Hy _ IH]; intros ts Hts; [reflexivity|].
    cbn [map_result] in Hts.
    destruct (Json.encode_member lim indent (S level) (k, y)) as [t'|] eqn:Ht';
      [|discriminate].
    destruct (map_result _ ys) as [ts'|]; [|discriminate].
    apply encode_pair_returns in Ht' as (kt & vt & Hk & Hv & _).
    cbn [fst snd] in Hk, Hv, Hy.
    cbn [forallb fst snd].
    rewrite (proj2 (key_text_returns _ k) (ex_intro _ kt Hk)).
    rewrite (Hy _ _ Hv), (IH _ eq_refl). reflexivity.
Qed.

(** The items of a dict are written only if the encoder has a rule for
    every part of every value. *)
Lemma encode_items_returns_encodable (lim : limits) (indent level : nat)
    (d : list (string * pyval)) (ts : list string) :
  Json.encode_items lim indent level d = Return ts ->
  forall p a, In (p, a) d -> encodable (int_max_str_digits lim) a = true.
Proof.
  unfold Json.encode_items. revert ts.
  induction d as [|[q b] d IH]; intros ts Hts p a Hin; [contradiction|].
  cbn [map_result] in Hts.
  destruct (Json.encode_item lim indent level (q, b)) as [t|] eqn:Ht;
    [|discriminate].
  destruct (map_result _ d) as [ts'|]; [|discriminate].
  destruct Hin as [[= <- <-]|Hin]; [|now apply (IH ts' eq_refl p a)].
  unfold Json.encode_item in Ht.
  apply encode_pair_returns in Ht as (kt & vt & _ & Hv & _).
  now apply (iterencode_returns_encodable lim indent b level vt).
Qed.

End Serialisable.

(** A value without a text ends the script before the output. *)
Lemma unwritable_value_fails (w : world) (p i : string) (a : pyval) :
  In (p, i) lookups ->
  resolved w (p, i) a ->
  encodable (int_max_str_digits (sys_limits w)) a = false ->
  snd (run_script w) = ExitFailure /\
  no_print (fst (run_script w)) /\
  exists e, outcome (script w) = Raise e.
Proof.
  intros Hin Hres Hbad.
  destruct (lookup_all_events w lookups) as (Hnp & _ & _).
  unfold run_script. rewrite script_loop.
  destruct (lookup_all_cases w lookups)
    as [(before & q & j & after & e & tr & d & Hsplit & Hran & Hrun & Hall)
       | (tr & d & Hran & Hall)];
    rewrite Hall in *; cbn [trace fst snd outcome] in *.
  - repeat split; [exact Hnp | now exists e].
  - destruct (Json.encode_items (sys_limits w) 2 1 d) as [ts|e] eqn:Hts.
    + exfalso.
      destruct (ran_items w _ _ _ Hran) as (_ & _ & Hitems).
      destruct (Hitems p i Hin) as (b & Hb & Hd).
      unfold resolved in Hres, Hb. rewrite Hres in Hb. injection Hb as <-.
      rewrite (encode_items_returns_encodable _ _ _ _ _ Hts p a Hd) in Hbad.
      discriminate Hbad.
    + repeat split; [exact Hnp | now exists e].
Qed.

(** X8.  A lookup that resolves to an object the encoder cannot write (an
    instance of a class without a rule, an integer over the limit on
    conversion, a dict with a key that is not taken, at any depth) makes the
    script fail without a call of [print]. *)
Theorem X8_unwritable_value_fails (w : world) (p i : string) (a : pyval) :
  In (p, i) lookups ->
  resolved w (p, i) a ->
  encodable (int_max_str_digits (sys_limits w)) a = false ->
  snd (run_script w) = ExitFailure /\
  no_print (fst (run_script w)) /\
  exists e, outcome (script w) = Raise e.
Proof. exact (unwritable_value_fails w p i a). Qed.

Lemma X8_unwritable_value_witness :
  let w := world_version_object (PDict [(KOther "tuple", PStr "2.1.0")]) in
  snd (run_script w) = ExitFailure /\
  no_print (fst (run_script w)) /\
  exists e, outcome (script w) = Raise e.
Proof.
  cbv zeta.
  apply (X8_unwritable_value_fails _ "torch" "torch"
           (PDict [(KOther "tuple", PStr "2.1.0")])).
  - cbn. auto.
  - reflexivity.
  - reflexivity.
Defined.

(** The digits of a one followed by [k] zeros are counted without writing
    the number out. *)
Lemma ten_to_digits (k : nat) :
  Decimal.nb_digits (Json.int_digits (ten_to k)) = S k.
Proof.
  unfold Json.int_digits, ten_to. rewrite DecimalZ.to_of.
  cbn [Decimal.norm].
  change (Decimal.unorm (Decimal.D1 (Nat.iter k Decimal.D0 Decimal.Nil)))
    with (Decimal.D1 (Nat.iter k Decimal.D0 Decimal.Nil)).
  cbn [Decimal.nb_digits]. f_equal.
  induction k as [|k IH]; [reflexivity|].
  rewrite Nat.iter_succ. cbn [Decimal.nb_digits]. now rewrite IH.
Qed.

Lemma world_version_object_resolves (a : pyval) (p i : string) :
  resolved (world_version_object a) (p, i) a.
Proof. reflexivity. Qed.

(** An integer of 4301 digits is over the default limit of 4300: its
    conversion raises [ValueError], and the script fails without a call of
    [print].  One of 4300 digits is within the limit. *)
Example huge_version_fails :
  let w := world_version_object (PInt (ten_to 4300)) in
  Json.iterencode default_limits 2 1 (PInt (ten_to 4300))
  = Raise (ValueError
             ("Exceeds the limit (4300 digits) for integer string conversion; "
              ++ "use sys.set_int_max_str_digits() to increase the limit")) /\
  (snd (run_script w) = ExitFailure /\
   no_print (fst (run_script w)) /\
   exists e, outcome (script w) = Raise e) /\
  serializable default_limits (PInt (ten_to 4300)) = false /\
  serializable default_limits (PInt (ten_to 4299)) = true.
Proof.
  cbv zeta.
  assert (Hover : Json.exceeds_limit 4300 (ten_to 4300) = true)
    by (unfold Json.exceeds_limit; rewrite ten_to_digits; reflexivity).
  assert (Hunder : Json.exceeds_limit 4300 (ten_to 4299) = false)
    by (unfold Json.exceeds_limit; rewrite ten_to_digits; reflexivity).
  split; [|split; [|split]].
  - cbn [Json.iterencode default_limits int_max_str_digits].
    unfold Json.int_repr. rewrite Hover. reflexivity.
  - apply (unwritable_value_fails _ "torch" "torch" (PInt (ten_to 4300))).
    + cbn. auto.
    + apply world_version_object_resolves.
    + cbn [encodable world_version_object sys_limits default_limits
             int_max_str_digits].
      rewrite Hover. reflexivity.
  - unfold serializable.
    cbn [encodable fits default_limits int_max_str_digits].
    rewrite Hover. reflexivity.
  - unfold serializable.
    cbn [encodable fits default_limits int_max_str_digits].
    rewrite Hunder. reflexivity.
Qed.

(** ** Further properties of the lookup *)

Section LineFacts.

Local Open Scope string_scope.

Lemma string_forall_app (f : ascii -> bool) (a b : string) :
  string_forall f (a ++ b) = string_forall f a && string_forall f b.
Proof.
  induction a as [|c a IH]; cbn [String.append string_forall];
    [reflexivity | now rewrite IH, andb_assoc].
Qed.

(** No line of [splitlines] holds a line boundary. *)
Lemma splitlines_no_linebreak (s : string) :
  forall after_cr,
    Forall (fun l => no_linebreak l = true) (PyStr.splitlines_aux after_cr s).
Proof.
  induction s as [|c s IH]; intro after_cr; cbn [PyStr.splitlines_aux];
    [constructor|].
  destruct (after_cr && Ascii.eqb c PyStr.LF); [apply IH|].
  destruct (PyStr.islinebreak c) eqn:Hc.
  - constructor; [reflexivity | apply IH].
  - specialize (IH false).
    destruct (PyStr.splitlines_aux false s) as [|l ls].
    + constructor; [|constructor].
      unfold no_linebreak. cbn [string_forall]. now rewrite Hc.
    + inversion IH as [|? ? Hl Hls]; subst. constructor; [|exact Hls].
      unfold no_linebreak in *. cbn [string_forall]. now rewrite Hc.
Qed.

Lemma lstrip_fixed (s : string) :
  (forall c, first_char s = Some c -> PyStr.isspace c = false) ->
  PyStr.lstrip s = s.
Proof.
  destruct s as [|c s]; [reflexivity|]. intro H.
  cbn [PyStr.lstrip]. now rewrite (H c eq_refl).
Qed.

Lemma rstrip_fixed (s : string) :
  (forall c, last_char s = Some c -> PyStr.isspace c = false) ->
  PyStr.rstrip s = s.
Proof.
  induction s as [|c s IH]; [reflexivity|]. intro H.
  cbn [PyStr.rstrip]. destruct s as [|c' s].
  - cbn [PyStr.rstrip]. now rewrite (H c eq_refl).
  - rewrite IH; [reflexivity|]. intros x Hx. apply H. exact Hx.
Qed.

End LineFacts.

Lemma version_of_none (w : world) (i : string) :
  version_of w i = None <-> exists e, fallback_raises w i e.
Proof.
  unfold version_of, fallback_raises.
  destruct (py_import w i) as [m|e] eqn:Himp.
  - destruct (m "__version__") as [a|e] eqn:Hattr.
    + split; [discriminate|].
      intros [e [H | (m' & [= <-] & H)]]; [discriminate H | congruence].
    + split; [|reflexivity]. intros _. exists e. right. now exists m.
  - split; [|reflexivity]. intros _. exists e. now left.
Qed.

Lemma version_of_some (w : world) (i : string) (a : pyval) :
  version_of w i = Some a <-> fallback_returns w i a.
Proof.
  unfold version_of, fallback_returns.
  destruct (py_import w i) as [m|e] eqn:Himp.
  - destruct (m "__version__") as [b|e] eqn:Hattr.
    + split; [intros [= <-]; now exists m|].
      intros (m' & [= <-] & H). congruence.
    + split; [discriminate|]. intros (m' & [= <-] & H). congruence.
  - split; [discriminate|]. intros (m' & H & _). discriminate H.
Qed.

(** X1.  On a line that passes the test of [v], [split(":", 1)] has exactly
    two items, so that the indexing [[1]] of the same statement never raises
    [IndexError]. *)
Theorem X1_index_never_fails (l : string) :
  is_version_line l = true ->
  exists a b,
    PyStr.split PyStr.COLON 1 l = [a; b] /\
    l = (a ++ ":" ++ b)%string /\
    forall w, getitem (PyStr.split PyStr.COLON 1 l) 1 w = ([], Return b).
Proof.
  intro H.
  destruct (version_line_shape l H) as (key & rest & -> & _ & Hkey).
  exists key, rest.
  assert (Hsplit : PyStr.split PyStr.COLON 1 (key ++ String ":" rest)
                   = [key; rest]).
  { cbn [PyStr.split]. unfold PyStr.COLON.
    now rewrite (partition_first _ _ _ Hkey). }
  rewrite Hsplit. repeat split.
Qed.

Lemma X1_index_never_fails_witness :
  exists a b,
    PyStr.split PyStr.COLON 1 "Version: 2.1.0" = [a; b] /\
    "Version: 2.1.0" = (a ++ ":" ++ b)%string /\
    forall w, getitem (PyStr.split PyStr.COLON 1 "Version: 2.1.0") 1 w
              = ([], Return b).
Proof.
  apply (X1_index_never_fails "Version: 2.1.0"). reflexivity.
Defined.

(** X2.  The lines that pass the test of [v] are exactly those made of a
    spelling of [version] in any mix of upper and lower case, a colon, and
    any remainder: nothing may come before the word, and nothing between the
    word and the colon. *)
Theorem X2_version_line_iff (l : string) :
  is_version_line l = true <->
  exists key rest,
    l = (key ++ ":" ++ rest)%string /\ PyStr.lower key = "version".
Proof.
  split.
  - intro H. destruct (version_line_shape l H) as (key & rest & Hl & Hk & _).
    now exists key, rest.
  - intros (key & rest & -> & Hk). now apply version_line_built.
Qed.

(** X3.  A value resolved from the output of [pip show] is a text of one
    line, without whitespace at either end: no line boundary occurs in it and
    stripping it again changes nothing. *)
Theorem X3_query_value_is_one_trimmed_line
    (w : world) (p i : string) (rc : Z) (out l : string) :
  os_exec w (pip_show_argv w p) = Exited rc out ->
  find is_version_line (PyStr.splitlines out) = Some l ->
  exists s,
    outcome (v p i w) = Return (PStr s) /\
    no_linebreak s = true /\
    (forall c, first_char s = Some c -> PyStr.isspace c = false) /\
    (forall c, last_char s = Some c -> PyStr.isspace c = false) /\
    PyStr.strip s = s.
Proof.
  intros Hrun Hfind.
  assert (Hl : no_linebreak l = true).
  { pose proof (splitlines_no_linebreak out false) as Hall.
    rewrite Forall_forall in Hall. apply Hall.
    apply find_some in Hfind. tauto. }
  destruct (version_line_shape l) as (key & rest & -> & _ & Hkey).
  { apply find_some in Hfind. tauto. }
  exists (PyStr.strip rest).
  destruct (strip_trimmed rest) as (a & b & Hrest & _ & _ & Hfirst & Hlast).
  split; [now rewrite (v_found w p i rc out key rest)|].
  split; [|split; [exact Hfirst | split; [exact Hlast|]]].
  - unfold no_linebreak in *.
    rewrite string_forall_app in Hl. apply andb_true_iff in Hl as [_ Hl].
    cbn [string_forall] in Hl. apply andb_true_iff in Hl as [_ Hl].
    rewrite Hrest, !string_forall_app in Hl.
    apply andb_true_iff in Hl as [_ Hl].
    now apply andb_true_iff in Hl as [Hl _].
  - unfold PyStr.strip at 1.
    rewrite (lstrip_fixed _ Hfirst). now apply rstrip_fixed.
Qed.

Lemma X3_query_value_witness :
  exists s,
    outcome (v "torch" "torch" world_sample) = Return (PStr s) /\
    no_linebreak s = true /\
    (forall c, first_char s = Some c -> PyStr.isspace c = false) /\
    (forall c, last_char s = Some c -> PyStr.isspace c = false) /\
    PyStr.strip s = s.
Proof.
  apply (X3_query_value_is_one_trimmed_line world_sample "torch" "torch" 0
           ("Name: torch" ++ LFs ++ "Version: 2.1.0" ++ LFs
            ++ "Summary: Tensors" ++ LFs)%string "Version: 2.1.0");
    reflexivity.
Defined.

(** X4.  A lookup reads of the world its own query and, of the module it
    imports, the [__version__] alone: two worlds that agree on the
    interpreter, on the outcome of that query, and on whether and what
    [__version__] can be read from that module give the same lookup, whatever
    else differs (the other attributes, the exception an import raises). *)
Theorem X4_lookup_reads_only_its_own (w w' : world) (p i : string) :
  sys_executable w' = sys_executable w ->
  os_exec w' (pip_show_argv w p) = os_exec w (pip_show_argv w p) ->
  version_of w' i = version_of w i ->
  v p i w' = v p i w.
Proof.
  intros Hexe Hrun Hver.
  assert (Hargv : pip_show_argv w' p = pip_show_argv w p)
    by (unfold pip_show_argv; now rewrite Hexe).
  rewrite <- Hargv in Hrun at 1.
  destruct (os_exec w (pip_show_argv w p)) as [e|rc out] eqn:Hw.
  - rewrite (v_run_raises w p i e Hw), (v_run_raises w' p i e Hrun).
    now rewrite Hargv.
  - destruct (find is_version_line (PyStr.splitlines out)) as [l|] eqn:Hfind.
    + destruct (version_line_shape l) as (key & rest & -> & _ & Hkey).
      { apply find_some in Hfind. tauto. }
      rewrite (v_found w p i rc out key rest Hw Hfind Hkey).
      rewrite (v_found w' p i rc out key rest Hrun Hfind Hkey).
      now rewrite Hargv.
    + destruct (version_of w i) as [a|] eqn:Hv.
      * apply version_of_some in Hv, Hver.
        rewrite (v_fallback_returns w p i rc out a Hw Hfind Hv).
        rewrite (v_fallback_returns w' p i rc out a Hrun Hfind Hver).
        now rewrite Hargv.
      * apply version_of_none in Hv as [e He], Hver as [e' He'].
        rewrite (v_fallback_raises w p i rc out e Hw Hfind He).
        rewrite (v_fallback_raises w' p i rc out e' Hrun Hfind He').
        now rewrite Hargv.
Qed.

Lemma X4_lookup_reads_only_witness :
  let w' := {| sys_executable := "/usr/bin/python3";
               os_exec := fun _ => Exited 1 EmptyString;
               py_import := fun name =>
                 if String.eqb name "edge_tts"
                 then Return (fun attr =>
                        if String.eqb attr "__version__"
                        then Return (PStr "6.1.9")
                        else Return (PStr attr))
                 else Raise KeyboardInterrupt;
               sys_limits := {| int_max_str_digits := 0; max_nesting := 0 |};
               stdout_write := fun _ => Some (OtherException "BrokenPipeError");
               stdout_flush_ok := false |} in
  v "edge-tts" "edge_tts" w' = v "edge-tts" "edge_tts" world_sample.
Proof.
  cbv zeta.
  apply X4_lookup_reads_only_its_own; reflexivity.
Defined.

(** ** Further properties of the output *)

Section OutputFacts.

Local Open Scope string_scope.

Lemma escape_char_ascii (c : ascii) :
  string_forall (PyStr.between 32 126) (Json.escape_char c) = true.
Proof. destruct c as [[] [] [] [] [] [] [] []]; reflexivity. Qed.

Lemma escape_ascii (s : string) :
  string_forall (PyStr.between 32 126) (Json.escape s) = true.
Proof.
  induction s as [|c s IH]; cbn [Json.escape]; [reflexivity|].
  now rewrite string_forall_app, escape_char_ascii, IH.
Qed.

Lemma string_forall_weaken (f g : ascii -> bool) (s : string) :
  (forall c, f c = true -> g c = true) ->
  string_forall f s = true -> string_forall g s = true.
Proof.
  intro Hfg. induction s as [|c s IH]; cbn [string_forall]; [reflexivity|].
  intro H. apply andb_true_iff in H as [Hc Hs].
  now rewrite (Hfg c Hc), (IH Hs).
Qed.

Lemma printable_output_char (c : ascii) :
  PyStr.between 32 126 c = true -> output_char c = true.
Proof. unfold output_char. now intros ->. Qed.

Lemma printable_not_linebreak (c : ascii) :
  PyStr.between 32 126 c = true -> negb (PyStr.islinebreak c) = true.
Proof.
  destruct c as [[] [] [] [] [] [] [] []]; vm_compute; intro H;
    solve [reflexivity | discriminate H].
Qed.

Lemma encoded_string_printable (s : string) :
  string_forall (PyStr.between 32 126) (Json.py_encode_basestring_ascii s) = true.
Proof.
  unfold Json.py_encode_basestring_ascii. cbn [string_forall].
  now rewrite string_forall_app, escape_ascii.
Qed.

Lemma digits_printable (d : Decimal.uint) :
  string_forall (PyStr.between 32 126) (NilEmpty.string_of_uint d) = true.
Proof. induction d; cbn; auto. Qed.

Lemma int_repr_printable (max_str_digits : N) (n : Z) (t : string) :
  Json.int_repr max_str_digits n = Return t ->
  string_forall (PyStr.between 32 126) t = true.
Proof.
  unfold Json.int_repr. destruct (Json.exceeds_limit max_str_digits n);
    [discriminate|].
  intros [= <-].
  destruct n as [|p|p]; cbn [Z.to_int NilZero.string_of_int string_forall];
    try reflexivity; rewrite pos_digits_text; cbn; apply digits_printable.
Qed.

Lemma decimal_printable (n : N) :
  string_forall (PyStr.between 32 126) (Json.decimal n) = true.
Proof.
  destruct (decimal_digits n) as [-> _]. apply digits_printable.
Qed.

Lemma zeros_printable (k : nat) :
  string_forall (PyStr.between 32 126) (Json.zeros k) = true.
Proof. induction k as [|k IH]; cbn; auto. Qed.

Lemma floatstr_printable (f : pyfloat) :
  string_forall (PyStr.between 32 126) (Json.floatstr f) = true.
Proof.
  destruct f as [|[]|negative whole frac exponent]; try reflexivity.
  cbn [Json.floatstr]. unfold Json.float_repr.
  rewrite !string_forall_app, decimal_printable.
  destruct negative, frac as [[k n]|], exponent as [e|];
    repeat (rewrite ?string_forall_app, ?decimal_printable, ?zeros_printable;
            cbn [String.append string_forall andb]);
    try reflexivity;
    destruct (e <? 0)%Z, (Z.abs_N e <? 10)%N;
    cbn [String.append string_forall andb];
    rewrite ?decimal_printable; reflexivity.
Qed.

Lemma spaces_printable (n : nat) :
  string_forall (PyStr.between 32 126) (Json.spaces n) = true.
Proof. induction n as [|n IH]; cbn; auto. Qed.

Lemma newline_indent_output (indent level : nat) :
  string_forall output_char (Json.newline_indent indent level) = true.
Proof.
  unfold Json.newline_indent. cbn [string_forall].
  apply (string_forall_weaken _ _ _ printable_output_char), spaces_printable.
Qed.

Lemma concat_forall (f : ascii -> bool) (sep : string) (ts : list string) :
  string_forall f sep = true ->
  Forall (fun t => string_forall f t = true) ts ->
  string_forall f (String.concat sep ts) = true.
Proof.
  intros Hsep Hts. induction Hts as [|t ts Ht Hts IH]; [reflexivity|].
  destruct ts as [|t' ts]; [exact Ht|].
  rewrite concat_more, !string_forall_app, Ht, Hsep. exact IH.
Qed.

(** Every text the encoder writes is made of printable ASCII characters and
    line feeds. *)
Lemma iterencode_output_chars (lim : limits) (indent : nat) (a : pyval) :
  forall level t,
    Json.iterencode lim indent level a = Return t ->
    string_forall output_char t = true.
Proof.
  induction a as [s| |b|n|f|xs IHxs|items IHitems|cls] using pyval_nested_ind;
    intros level t H.
  - injection H as <-.
    apply (string_forall_weaken _ _ _ printable_output_char),
      encoded_string_printable.
  - now injection H as <-.
  - destruct b; now injection H as <-.
  - apply (string_forall_weaken _ _ _ printable_output_char),
      (int_repr_printable _ n t H).
  - injection H as <-.
    apply (string_forall_weaken _ _ _ printable_output_char),
      floatstr_printable.
  - destruct xs as [|x xs].
    { cbn [Json.iterencode] in H.
      destruct (max_nesting lim <? level)%nat; [discriminate H|].
      now injection H as <-. }
    rewrite iterencode_list in H.
    destruct (max_nesting lim <? level)%nat; [discriminate H|].
    destruct (map_result (Json.iterencode lim indent (S level)) (x :: xs))
      as [ts|e] eqn:Hts; [|discriminate H].
    injection H as <-.
    assert (Hall : Forall (fun t => string_forall output_char t = true) ts).
    { revert ts Hts.
      induction IHxs as [|y ys Hy _ IH]; intros ts Hts; cbn [map_result] in Hts.
      - injection Hts as <-. constructor.
      - destruct (Json.iterencode lim indent (S level) y) as [t|] eqn:Ht;
          [|discriminate].
        destruct (map_result _ ys) as [ts'|]; [|discriminate].
        injection Hts as <-. constructor; [now apply (Hy _ _ Ht) | now apply IH]. }
    change (string_forall output_char
              ("[" ++ (Json.newline_indent indent (S level)
                       ++ String.concat ("," ++ Json.newline_indent indent (S level)) ts
                       ++ Json.newline_indent indent level) ++ "]") = true).
    rewrite !string_forall_app, !newline_indent_output.
    rewrite concat_forall; auto.
    rewrite string_forall_app, newline_indent_output. reflexivity.
  - destruct items as [|kv items].
    { cbn [Json.iterencode] in H.
      destruct (max_nesting lim <? level)%nat; [discriminate H|].
      now injection H as <-. }
    rewrite iterencode_dict in H.
    destruct (max_nesting lim <? level)%nat; [discriminate H|].
    destruct (map_result (Json.encode_member lim indent (S level)) (kv :: items))
      as [ts|e] eqn:Hts; [|discriminate H].
    injection H as <-.
    assert (Hall : Forall (fun t => string_forall output_char t = true) ts).
    { revert ts Hts.
      induction IHitems as [|[k y] ys Hy _ IH]; intros ts Hts;
        cbn [map_result] in Hts.
      - injection Hts as <-. constructor.
      - destruct (Json.encode_member lim indent (S level) (k, y)) as [t|] eqn:Ht;
          [|discriminate].
        destruct (map_result _ ys) as [ts'|]; [|discriminate].
        injection Hts as <-. constructor; [|now apply IH].
        apply encode_pair_returns in Ht as (kt & vt & Hk & Hv & ->).
        cbn [fst snd] in Hk, Hv, Hy.
        rewrite !string_forall_app, (Hy _ _ Hv).
        rewrite (string_forall_weaken _ _ _ printable_output_char
                   (encoded_string_printable kt)).
        reflexivity. }
    change (string_forall output_char
              ("{" ++ (Json.newline_indent indent (S level)
                       ++ String.concat ("," ++ Json.newline_indent indent (S level)) ts
                       ++ Json.newline_indent indent level) ++ "}") = true).
    rewrite !string_forall_app, !newline_indent_output.
    rewrite concat_forall; auto.
    rewrite string_forall_app, newline_indent_output. reflexivity.
  - discriminate H.
Qed.

(** What the script hands to [print], when it calls it. *)
Lemma printed_output (w : world) (out : string) :
  In (EvPrint out) (trace (script w)) ->
  exists a b c d ea eb ec ed,
    resolved w ("rvc-python", "rvc") a /\
    resolved w ("edge-tts", "edge_tts") b /\
    resolved w ("torch", "torch") c /\
    resolved w ("torchaudio", "torchaudio") d /\
    Json.iterencode (sys_limits w) 2 1 a = Return ea /\
    Json.iterencode (sys_limits w) 2 1 b = Return eb /\
    Json.iterencode (sys_limits w) 2 1 c = Return ec /\
    Json.iterencode (sys_limits w) 2 1 d = Return ed /\
    out = output_text ea eb ec ed.
Proof.
  intro Hin.
  pose proof (v_no_print w "rvc-python" "rvc") as Na.
  pose proof (v_no_print w "edge-tts" "edge_tts") as Nb.
  pose proof (v_no_print w "torch" "torch") as Nc.
  pose proof (v_no_print w "torchaudio" "torchaudio") as Nd.
  unfold resolved. cbn [fst snd].
  rewrite script_steps in Hin.
  destruct (v "rvc-python" "rvc" w) as [ta [a|e]]; cbn [trace fst] in Na, Hin;
    [|now apply Na in Hin].
  destruct (v "edge-tts" "edge_tts" w) as [tb [b|e]]; cbn [trace fst] in Nb, Hin;
    [|exfalso; revert Hin; apply no_print_app; assumption].
  destruct (v "torch" "torch" w) as [tc [c|e]]; cbn [trace fst] in Nc, Hin;
    [|exfalso; revert Hin;
      exact (no_print_app _ _ Na (no_print_app _ _ Nb Nc) out)].
  assert (Nabcd : forall td, no_print td -> no_print (ta ++ tb ++ tc ++ td))
    by (intros; auto using no_print_app).
  destruct (v "torchaudio" "torchaudio" w) as [td [d|e]];
    cbn [trace fst] in Nd, Hin;
    [|exfalso; revert Hin; exact (Nabcd _ Nd out)].
  destruct (Json.encode_items _ 2 1 _) as [ts|e] eqn:Hts; cbn [trace fst] in Hin;
    [|exfalso; revert Hin; exact (Nabcd _ Nd out)].
  destruct (encode_items_four _ _ _ _ _ _ _ _ _ _ _ _ Hts)
    as (ea & eb & ec & ed & Ha & Hb & Hc & Hd & ->).
  cbv zeta in Hin. rewrite dumps_layout in Hin. cbn [fst] in Hin.
  exists a, b, c, d, ea, eb, ec, ed. cbn [outcome snd].
  repeat (split; [solve [reflexivity | assumption]|]).
  apply in_app_or in Hin as [Hin|Hin]; [now apply Na in Hin|].
  apply in_app_or in Hin as [Hin|Hin]; [now apply Nb in Hin|].
  apply in_app_or in Hin as [Hin|Hin]; [now apply Nc in Hin|].
  apply in_app_or in Hin as [Hin|Hin]; [now apply Nd in Hin|].
  destruct Hin as [[= <-]|[]]. reflexivity.
Qed.

End OutputFacts.



Section Lines.

Local Open Scope string_scope.

(** A text without line boundary, then a line feed: one line. *)
Lemma splitlines_line (a rest : string) :
  no_linebreak a = true ->
  PyStr.splitlines (a ++ String PyStr.LF rest) = a :: PyStr.splitlines rest.
Proof.
  unfold PyStr.splitlines, no_linebreak.
  induction a as [|c a IH]; cbn [String.append string_forall]; intro H.
  - reflexivity.
  - apply andb_true_iff in H as [Hc Ha]. apply negb_true_iff in Hc.
    cbn [PyStr.splitlines_aux andb]. now rewrite Hc, (IH Ha).
Qed.

Lemma encoded_string_one_line (s : string) :
  no_linebreak (Json.py_encode_basestring_ascii s) = true.
Proof.
  apply (string_forall_weaken _ _ _ printable_not_linebreak),
    encoded_string_printable.
Qed.

Lemma entry_line_one_line (k e tail : string) :
  no_linebreak (JsonText.quoted k) = true -> no_linebreak e = true ->
  no_linebreak tail = true ->
  no_linebreak (entry_line k e ++ tail) = true.
Proof.
  unfold entry_line, no_linebreak. intros Hk He Ht.
  repeat (rewrite ?string_forall_app; cbn [String.append string_forall]).
  now rewrite Hk, He, Ht.
Qed.

(** The layout of the output, line by line. *)
Lemma output_text_lines (ea eb ec ed : string) :
  output_text ea eb ec ed =
  "{" ++ String PyStr.LF
    ((entry_line "rvc-python" ea ++ ",") ++ String PyStr.LF
      ((entry_line "edge-tts" eb ++ ",") ++ String PyStr.LF
        ((entry_line "torch" ec ++ ",") ++ String PyStr.LF
          ((entry_line "torchaudio" ed ++ "") ++ String PyStr.LF
            ("}" ++ String PyStr.LF ""))))).
Proof. unfold output_text, entry_line, LFs. string_eq. Qed.

Lemma output_splitlines (ea eb ec ed : string) :
  no_linebreak ea = true -> no_linebreak eb = true ->
  no_linebreak ec = true -> no_linebreak ed = true ->
  PyStr.splitlines (output_text ea eb ec ed) =
  ["{"; entry_line "rvc-python" ea ++ ","; entry_line "edge-tts" eb ++ ",";
   entry_line "torch" ec ++ ","; entry_line "torchaudio" ed; "}"].
Proof.
  intros Ha Hb Hc Hd. rewrite output_text_lines.
  rewrite splitlines_line by reflexivity.
  rewrite !splitlines_line by (apply entry_line_one_line; auto).
  rewrite splitlines_line by reflexivity.
  now rewrite append_nil_r.
Qed.

Lemma append_cancel_l (a x y : string) : a ++ x = a ++ y -> x = y.
Proof.
  induction a as [|c a IH]; cbn [String.append]; [auto|].
  intros [= H]. auto.
Qed.

(** One character of a string, once written, reads back as itself. *)
Lemma read_body_escape_char (c : ascii) (r : string) :
  read_body (Json.escape_char c ++ r) =
  match read_body r with
  | Some (s, rest) => Some (String c s, rest)
  | None => None
  end.
Proof. destruct c as [[] [] [] [] [] [] [] []]; reflexivity. Qed.

(** The body of a string literal reads back as the text it was written
    for, up to the closing quote. *)
Lemma read_body_escape (s r : string) :
  read_body (Json.escape s ++ String Json.DQUOTE r) = Some (s, r).
Proof.
  induction s as [|c s IH]; cbn [Json.escape String.append]; [reflexivity|].
  now rewrite append_assoc, read_body_escape_char, IH.
Qed.

Lemma read_string_encoded (s : string) :
  read_string (Json.py_encode_basestring_ascii s) = Some s.
Proof.
  unfold read_string, Json.py_encode_basestring_ascii.
  rewrite Ascii.eqb_refl. now rewrite read_body_escape.
Qed.

(** Two string literals followed by anything: equal texts, equal strings. *)
Lemma encoded_prefix_inj (s s' r r' : string) :
  Json.py_encode_basestring_ascii s ++ r
  = Json.py_encode_basestring_ascii s' ++ r' ->
  s = s' /\ r = r'.
Proof.
  unfold Json.py_encode_basestring_ascii. cbn [String.append].
  intros [= H]. rewrite !append_assoc in H. cbn [String.append] in H.
  apply (f_equal read_body) in H. rewrite !read_body_escape in H.
  now injection H.
Qed.

Lemma resolved_unique (w : world) (pi : string * string) (a b : pyval) :
  resolved w pi a -> resolved w pi b -> a = b.
Proof. unfold resolved. intros Ha Hb. rewrite Ha in Hb. now injection Hb. Qed.

(** What is printed when the four values are texts. *)
Lemma printed_texts (w : world) (out s1 s2 s3 s4 : string) :
  In (EvPrint out) (trace (script w)) ->
  resolved w ("rvc-python", "rvc") (PStr s1) ->
  resolved w ("edge-tts", "edge_tts") (PStr s2) ->
  resolved w ("torch", "torch") (PStr s3) ->
  resolved w ("torchaudio", "torchaudio") (PStr s4) ->
  out = output_text (Json.py_encode_basestring_ascii s1)
          (Json.py_encode_basestring_ascii s2)
          (Json.py_encode_basestring_ascii s3)
          (Json.py_encode_basestring_ascii s4).
Proof.
  intros Hin H1 H2 H3 H4.
  destruct (printed_output w out Hin)
    as (a & b & c & d & ea & eb & ec & ed & Ra & Rb & Rc & Rd
        & Ea & Eb & Ec & Ed & ->).
  rewrite (resolved_unique w _ _ _ Ra H1) in Ea.
  rewrite (resolved_unique w _ _ _ Rb H2) in Eb.
  rewrite (resolved_unique w _ _ _ Rc H3) in Ec.
  rewrite (resolved_unique w _ _ _ Rd H4) in Ed.
  cbn [Json.iterencode] in Ea, Eb, Ec, Ed.
  now injection Ea as <-; injection Eb as <-; injection Ec as <-;
    injection Ed as <-.
Qed.

End Lines.



(** X11.  When the four values are texts (of characters up to U+00FF, as
    all text here) the output tells them apart: two runs that print the same
    output resolved the same four texts. *)
Theorem X11_output_determines_texts
    (w w' : world) (out s1 s2 s3 s4 s1' s2' s3' s4' : string) :
  In (EvPrint out) (trace (script w)) ->
  In (EvPrint out) (trace (script w')) ->
  resolved w ("rvc-python", "rvc") (PStr s1) ->
  resolved w ("edge-tts", "edge_tts") (PStr s2) ->
  resolved w ("torch", "torch") (PStr s3) ->
  resolved w ("torchaudio", "torchaudio") (PStr s4) ->
  resolved w' ("rvc-python", "rvc") (PStr s1') ->
  resolved w' ("edge-tts", "edge_tts") (PStr s2') ->
  resolved w' ("torch", "torch") (PStr s3') ->
  resolved w' ("torchaudio", "torchaudio") (PStr s4') ->
  s1 = s1' /\ s2 = s2' /\ s3 = s3' /\ s4 = s4'.
Proof.
  intros Hin Hin' H1 H2 H3 H4 H1' H2' H3' H4'.
  pose proof (printed_texts w out s1 s2 s3 s4 Hin H1 H2 H3 H4) as Hout.
  rewrite (printed_texts w' out s1' s2' s3' s4' Hin' H1' H2' H3' H4') in Hout.
  unfold output_text in Hout.
  repeat (apply append_cancel_l in Hout).
  apply encoded_prefix_inj in Hout as [<- Hout].
  repeat (apply append_cancel_l in Hout).
  apply encoded_prefix_inj in Hout as [<- Hout].
  repeat (apply append_cancel_l in Hout).
  apply encoded_prefix_inj in Hout as [<- Hout].
  repeat (apply append_cancel_l in Hout).
  apply encoded_prefix_inj in Hout as [<- _].
  repeat split.
Qed.

Lemma X11_output_determines_witness :
  let w := world_version_object (PStr "1.0") in
  let w' := {| sys_executable := "python";
               os_exec := fun _ => Exited 0 ("version:1.0" ++ LFs)%string;
               py_import := fun name => Raise (ImportError name);
               sys_limits := default_limits;
               stdout_write := fun _ => None;
               stdout_flush_ok := true |} in
  "1.0" = "1.0" /\ "1.0" = "1.0" /\ "1.0" = "1.0" /\ "1.0" = "1.0".
Proof.
  cbv zeta.
  apply (X11_output_determines_texts
           (world_version_object (PStr "1.0"))
           {| sys_executable := "python";
              os_exec := fun _ => Exited 0 ("version:1.0" ++ LFs)%string;
              py_import := fun name => Raise (ImportError name);
              sys_limits := default_limits;
              stdout_write := fun _ => None;
              stdout_flush_ok := true |}
           (output_text (Json.py_encode_basestring_ascii "1.0")
              (Json.py_encode_basestring_ascii "1.0")
              (Json.py_encode_basestring_ascii "1.0")
              (Json.py_encode_basestring_ascii "1.0")));
    try reflexivity; vm_compute; tauto.
Defined.
